(** * midas_comms: serial protocol client for the CIMSII/Midas ink system

    A shallow embedding of [midas_comms.py].  Python values, exceptions and
    the mutable objects of the module are modelled explicitly:

    - a Python [str] is its list of code points;
    - a call either returns a value or raises, and the state it reached
      before raising is kept (monad [M]);
    - the pyserial port object is a record holding its [is_open] flag, the
      byte strings handed to [write], and the outcomes of the successive
      [read_until(...).decode(...)] evaluations, which belong to the device
      and the driver and are therefore an input of the model;
    - the accessor classes reach the connection only through the two
      methods [serial_write] and [serial_response] of the object they were
      given, so they are written over that interface. *)

From Stdlib Require Import List ZArith NArith String Ascii Bool Lia.
Import ListNotations.

(** ** Python strings *)

Definition str := list N.

Definition py (s : string) : str :=
  map N_of_ascii (list_ascii_of_string s).

(** The character written ["\r"] in the source. *)
Definition CR : str := [13%N].

Definition len (s : str) : Z := Z.of_nat (List.length s).

Fixpoint str_eqb (a b : str) : bool :=
  match a, b with
  | [], [] => true
  | x :: a', y :: b' => N.eqb x y && str_eqb a' b'
  | _, _ => false
  end.

Definition ord (c : ascii) : Z := Z.of_N (N_of_ascii c).

(** ** Exceptions and values *)

Inductive ExcClass :=
| TimeoutError
| SerialException
| SerialTimeoutException
| PortNotOpenError
| TypeError
| ValueError
| IndexError
| AttributeError
| UnicodeEncodeError
| UnicodeDecodeError
| OtherError.

Record Exc := { exc_class : ExcClass; exc_str : str }.

(** [isinstance(ex, TimeoutError)] and [isinstance(ex, SerialException)]:
    pyserial derives [SerialTimeoutException] and [PortNotOpenError] from
    [SerialException]; the built-in [TimeoutError] has no subclass here. *)
Definition is_TimeoutError (ex : Exc) : bool :=
  match exc_class ex with
  | TimeoutError => true
  | _ => false
  end.

Definition is_SerialException (ex : Exc) : bool :=
  match exc_class ex with
  | SerialException | SerialTimeoutException | PortNotOpenError => true
  | _ => false
  end.

(** The values that flow out of [serial_response] and into the caches. *)
Inductive PyVal :=
| VStr (s : str)
| VBool (b : bool)
| VExc (ex : Exc).

(** [v is True] *)
Definition is_True (v : PyVal) : bool :=
  match v with
  | VBool true => true
  | _ => false
  end.

Inductive Outcome (A : Type) :=
| Ret (a : A)
| Raise (ex : Exc).
Arguments Ret {A} a.
Arguments Raise {A} ex.

(** ** Computations over a mutable state *)

Definition M (S A : Type) : Type := S -> Outcome A * S.

Definition ret {S A} (a : A) : M S A := fun s => (Ret a, s).

Definition raise {S A} (ex : Exc) : M S A := fun s => (Raise ex, s).

Definition bind {S A B} (m : M S A) (k : A -> M S B) : M S B :=
  fun s =>
    match m s with
    | (Ret a, s') => k a s'
    | (Raise ex, s') => (Raise ex, s')
    end.

Declare Scope py_scope.
Delimit Scope py_scope with py.
Notation "x <- m ;; k" := (bind m (fun x => k))
  (at level 61, m at next level, right associativity) : py_scope.
Notation "m ;; k" := (bind m (fun _ => k))
  (at level 61, right associativity) : py_scope.
Open Scope py_scope.

(** ** Built-ins used by the module *)

(** [chr(i)]: a one-character string, [ValueError] outside
    [range(0x110000)]. *)
Definition chr (i : Z) : Outcome str :=
  if ((0 <=? i) && (i <? 1114112))%Z
  then Ret [Z.to_N i]
  else Raise {| exc_class := ValueError;
                exc_str := py "chr() arg not in range(0x110000)" |}.

Definition byte_of (n : N) : Byte.byte :=
  match Byte.of_N (N.land n 255) with
  | Some b => b
  | None => Byte.x00
  end.

Definition continuation (n : N) : Byte.byte :=
  byte_of (N.lor 128 (N.land n 63)).

(** UTF-8 encoding of one code point; lone surrogates are not encodable. *)
Definition encode_point (c : N) : option (list Byte.byte) :=
  if (c <? 128)%N then Some [byte_of c]
  else if (c <? 2048)%N then
    Some [byte_of (N.lor 192 (N.shiftr c 6)); continuation c]
  else if (c <? 65536)%N then
    if ((55296 <=? c) && (c <=? 57343))%N then None
    else Some [byte_of (N.lor 224 (N.shiftr c 12));
               continuation (N.shiftr c 6); continuation c]
  else if (c <? 1114112)%N then
    Some [byte_of (N.lor 240 (N.shiftr c 18));
          continuation (N.shiftr c 12);
          continuation (N.shiftr c 6); continuation c]
  else None.

Fixpoint encode_utf8 (s : str) : option (list Byte.byte) :=
  match s with
  | [] => Some []
  | c :: s' =>
      match encode_point c, encode_utf8 s' with
      | Some b, Some bs => Some (b ++ bs)
      | _, _ => None
      end
  end.

(** [bytes(s, 'utf-8')] *)
Definition bytes (s : str) : Outcome (list Byte.byte) :=
  match encode_utf8 s with
  | Some b => Ret b
  | None => Raise {| exc_class := UnicodeEncodeError;
                     exc_str := py "'utf-8' codec can't encode character" |}
  end.

(** Subscription keys.  [s[i]] has an integer key, [s[i, j]] a tuple. *)
Inductive Key :=
| KInt (i : Z)
| KTuple (items : list Z).

(** [str.__getitem__]: integers index from either end, anything else is a
    [TypeError]. *)
Definition str_getitem (s : str) (k : Key) : Outcome str :=
  match k with
  | KInt i =>
      let j := (if i <? 0 then i + len s else i)%Z in
      if ((0 <=? j) && (j <? len s))%Z
      then Ret [nth (Z.to_nat j) s 0%N]
      else Raise {| exc_class := IndexError;
                    exc_str := py "string index out of range" |}
  | KTuple _ =>
      Raise {| exc_class := TypeError;
               exc_str := py "string indices must be integers, not 'tuple'" |}
  end.

(** ** The serial port object (pyserial) *)

(** What one evaluation of
    [self.serial.read_until(expected='C').decode("utf-8")]
    produces: the decoded text, or the exception the driver or the decoder
    raised. *)
Inductive RxEvent :=
| RxStr (s : str)
| RxRaise (ex : Exc).

Record Serial := {
  is_open : bool;
  written : list (list Byte.byte);
  incoming : nat -> RxEvent;
  reads : nat
}.

Definition AttributeError_serial : Exc :=
  {| exc_class := AttributeError;
     exc_str := py "'MidasSerial' object has no attribute 'serial'" |}.

(** ** class MidasSerial *)

Module MidasSerial.

(** The object keeps the port in [self.serial], an attribute that exists
    only once [open_connection] has run.  [stdout] collects what the
    methods print.  The six connection settings are only handed to the
    driver and are left out. *)
Record t := {
  serial : option Serial;
  stdout : list str
}.

Definition __init__ : t := {| serial := None; stdout := [] |}.

(** [serial.Serial(...)] opens the port; [device] is what the line will
    answer. *)
Definition open_connection (device : nat -> RxEvent) : M t unit :=
  fun self =>
    (Ret tt,
     {| serial := Some {| is_open := true; written := [];
                          incoming := device; reads := 0 |};
        stdout := stdout self |}).

Definition close_connection : M t unit :=
  fun self =>
    match serial self with
    | None => (Raise AttributeError_serial, self)
    | Some p =>
        (Ret tt,
         {| serial := Some {| is_open := false; written := written p;
                              incoming := incoming p; reads := reads p |};
            stdout := stdout self |})
    end.

(** [self.serial.is_open] *)
Definition serial_is_open : M t bool :=
  fun self =>
    match serial self with
    | None => (Raise AttributeError_serial, self)
    | Some p => (Ret (is_open p), self)
    end.

(** [self.serial.write(data)] *)
Definition serial_port_write (data : list Byte.byte) : M t unit :=
  fun self =>
    match serial self with
    | None => (Raise AttributeError_serial, self)
    | Some p =>
        (Ret tt,
         {| serial := Some {| is_open := is_open p;
                              written := written p ++ [data];
                              incoming := incoming p; reads := reads p |};
            stdout := stdout self |})
    end.

(** [self.serial.read_until(expected='C').decode("utf-8")] *)
Definition serial_port_read : M t RxEvent :=
  fun self =>
    match serial self with
    | None => (Raise AttributeError_serial, self)
    | Some p =>
        (Ret (incoming p (reads p)),
         {| serial := Some {| is_open := is_open p; written := written p;
                              incoming := incoming p; reads := S (reads p) |};
            stdout := stdout self |})
    end.

Definition print (line : str) : M t unit :=
  fun self =>
    (Ret tt, {| serial := serial self; stdout := stdout self ++ [line] |}).

Definition lift {A} (o : Outcome A) : M t A :=
  fun self => (o, self).

Definition serial_write (command : str) (node_id : Z) : M t unit :=
  command <- (if (node_id =? 0)%Z then ret command
              else
                network_address <- lift (chr (ord "@" + node_id)) ;;
                ret (network_address ++ command)) ;;
  open <- serial_is_open ;;
  if open then
    data <- lift (bytes command) ;;
    serial_port_write data
  else ret tt.

Definition serial_response (response_type : str) : M t PyVal :=
  event <- serial_port_read ;;
  match event with
  | RxRaise ex =>
      if is_TimeoutError ex then
        print (py "Error: Timeout, exception: " ++ exc_str ex) ;;
        ret (VExc ex)
      else if is_SerialException ex then
        print (py "Error: Port Closed, exception: " ++ exc_str ex) ;;
        ret (VExc ex)
      else raise ex
  | RxStr response =>
      response_check <-
        lift (str_getitem response (KTuple [(len response - 3)%Z; 1%Z])) ;;
      if str_eqb response_check (py "?") then
        print (py "Bad Command, not understood") ;;
        ret (VStr (py "?,C"))
      else if str_eqb response_check (py ">") then
        print (py "Bad Command, data missing") ;;
        ret (VStr (py "<,C"))
      else if str_eqb response_type (py "set") then
        ret (VBool (str_eqb response (py ",A,C")))
      else if str_eqb response_type (py "get") then
        response_information <-
          lift (str_getitem response (KTuple [2%Z; (len response - 2)%Z])) ;;
        ret (VStr response_information)
      else ret (VStr (py "None"))
  end.

End MidasSerial.

(** ** The connection as the accessor classes see it *)

(** [Status], [Pressures], [Temperatures], [Pumps], [Purge] and [Midas] call
    [self.serialconn.serial_write] and [self.serialconn.serial_response] and
    nothing else of the connection object. *)
Class Serialconn (C : Type) := {
  serial_write : str -> Z -> M C unit;
  serial_response : str -> M C PyVal
}.

#[global] Instance MidasSerial_Serialconn : Serialconn MidasSerial.t := {
  serial_write := MidasSerial.serial_write;
  serial_response := MidasSerial.serial_response
}.

(** ** Cached state of the facade *)

(** Instance attributes of the six objects built by [Midas.__init__]
    ([Midas] itself and its [status], [pressures], [temperature], [pumps]
    and [purge]); [__init__] creates every one of them and no method
    deletes any.  [attr] lists those holding a plain value, [dict] those
    holding a dictionary with the two keys ['actual'] and ['demand']. *)
Module self.

Inductive attr :=
| status_word
| status_bit
| error_desc
| alarm
| running_hours
| fill_cycles
| temp_heater_1
| recirc_command
| meniscus_command
| firmware_version
| serial_number
| system_type
| active_heads
| statup_function
| network_id.

Inductive dict :=
| alarm_masks
| critical_alarms
| return_pressure
| non_recirc_meniscus_pressure
| infeed_pressure
| pressure_sensor_type
| tank_temperature
| aux_temp
| preheat_time
| heater_1_duty
| heater_2_duty
| pump_timeout
| manual_recirc_speed
| fill_speed
| manual_meniscus_state
| purge_pressure
| purge_type
| purge_time
| local_purge_time
| bypass_time
| drain_status
| prime_state
| enable_bits
| extended_enable_bits
| dynamic_calibration_state.

Scheme Equality for attr.
Scheme Equality for dict.

End self.

Inductive key := actual | demand.

Scheme Equality for key.

(** The object graph: one connection shared by all six objects, and their
    attributes. *)
Record Midas (C : Type) := {
  serialconn : C;
  attrs : self.attr -> PyVal;
  dicts : self.dict -> key -> PyVal
}.
Arguments serialconn {C} _.
Arguments attrs {C} _ _.
Arguments dicts {C} _ _ _.
Arguments Build_Midas {C} _ _ _.

(** [Midas.__init__]: every cache starts as the empty string. *)
Definition Midas__init__ {C} (conn : C) : Midas C :=
  {| serialconn := conn;
     attrs := fun _ => VStr [];
     dicts := fun _ _ => VStr [] |}.

Definition update_attr (a : self.attr) (v : PyVal)
    (f : self.attr -> PyVal) : self.attr -> PyVal :=
  fun a' => if self.attr_beq a' a then v else f a'.

Definition update_item (d : self.dict) (k : key) (v : PyVal)
    (f : self.dict -> key -> PyVal) : self.dict -> key -> PyVal :=
  fun d' k' => if self.dict_beq d' d && key_beq k' k then v else f d' k'.

(** [subject == literal] as the [match] statement tests it. *)
Definition py_eq (subject : PyVal) (literal : str) : bool :=
  match subject with
  | VStr s => str_eqb s literal
  | _ => false
  end.

(** [case literal: self.x = result] *)
Definition case (literal result : string) : string * string :=
  (literal, result).

(** A [match] statement whose cases are string literals, each assigning one
    string, with a final [case _]. *)
Fixpoint match_case (subject : PyVal) (cases : list (string * string))
    (default : string) : str :=
  match cases with
  | [] => py default
  | (literal, result) :: rest =>
      if py_eq subject (py literal) then py result
      else match_case subject rest default
  end.

Inductive Getter :=
| Get_status_word
| Get_status_bit
| Get_last_error_code
| Get_alarms
| Get_system_running_hours
| Get_alam_masks
| Get_critical_alarms
| Get_fill_cycles
| Get_return_pressure
| Get_non_recirc_meniscus_pressure
| Get_infeed_pressure
| Get_pressure_sensor_type
| Get_heater_temp_1
| Get_tank_temperature
| Get_aux_temperture
| Get_preheat_time
| Get_heater_1_duty
| Get_heater_2_duty
| Get_pump_timeout
| Get_manual_recirc_speed
| Get_fill_speed
| Get_recirc_pump_command
| Get_manual_meniscus
| Get_meniscus_pump_command
| Get_purge_pressure
| Get_purge_status
| Get_purge_time
| Get_local_purge_time
| Get_firmware_version
| Get_serial_number
| Get_system_type
| Get_bypass_time
| Get_drain_status
| Get_prime_system_status
| Get_network_id
| Get_enable_bits
| Get_extended_enable_bits
| Get_dynamic_calibration_state.

Inductive Setter :=
| Set_alam_masks
| Set_critical_alarms
| Clear_alarms
| Set_return_pressure
| Set_non_recirc_meniscus_pressure
| Set_infeed_pressure
| Set_pressure_sensor_type
| Set_tank_temperature
| Set_aux_temperture
| Set_preheat_time
| Set_heater_1_duty
| Set_heater_2_duty
| Set_pump_timeout
| Set_manual_recirc_speed
| Set_fill_speed
| Set_manual_meniscus
| Set_purge_pressure
| Triger_purge
| Set_purge_time
| Set_local_purge_time
| Set_active_heads
| Set_bypass_time
| Set_startup_function
| Set_drain
| Set_prime_system
| Set_network_id
| Set_enable_bits
| Set_extended_enable_bits
| Set_dynamic_calibration_state.

Section Accessors.

Context {C : Type} `{Serialconn C}.

(** A method call on [self.serialconn]. *)
Definition call {A} (m : M C A) : M (Midas C) A :=
  fun w =>
    (fst (m (serialconn w)),
     {| serialconn := snd (m (serialconn w));
        attrs := attrs w; dicts := dicts w |}).

(** [self.a = v] *)
Definition setattr (a : self.attr) (v : PyVal) : M (Midas C) unit :=
  fun w =>
    (Ret tt,
     {| serialconn := serialconn w;
        attrs := update_attr a v (attrs w); dicts := dicts w |}).

(** [self.a] *)
Definition getattr (a : self.attr) : M (Midas C) PyVal :=
  fun w => (Ret (attrs w a), w).

(** [self.d[k] = v] *)
Definition setitem (d : self.dict) (k : key) (v : PyVal) : M (Midas C) unit :=
  fun w =>
    (Ret tt,
     {| serialconn := serialconn w;
        attrs := attrs w; dicts := update_item d k v (dicts w) |}).

(** [self.d[k]] *)
Definition getitem (d : self.dict) (k : key) : M (Midas C) PyVal :=
  fun w => (Ret (dicts w d k), w).

(** *** class Status *)

Definition get_status_word (node_id : Z) : M (Midas C) PyVal :=
  call (serial_write (py "STA?" ++ CR) node_id) ;;
  response <- call (serial_response (py "get")) ;;
  setattr self.status_word response ;;
  getattr self.status_word.

Definition get_status_bit (node_id : Z) : M (Midas C) PyVal :=
  call (serial_write (py "SSB?" ++ CR) node_id) ;;
  response <- call (serial_response (py "get")) ;;
  setattr self.status_bit response ;;
  getattr self.status_bit.

Definition get_last_error_code (node_id : Z) : M (Midas C) PyVal :=
  call (serial_write (py "SLE?" ++ CR) node_id) ;;
  error_code <- call (serial_response (py "get")) ;;
  setattr self.error_desc
    (VStr (match_case error_code
             [case "0" "0 - No error reported";
              case "10" "10 - Temperature heater 1 less than 1";
              case "20" "20 - Temperature heater 1 higher than upper limit";
              case "30" "30 - Temperature heater 1 ground loop error";
              case "40" "40 - Temperature heater 2 less than 1";
              case "50" "50 - Temperature heater 2 higher than upper limit";
              case "60" "60 - Temperature heater 2 ground loop error";
              case "70" "70 - i2c read erro"]
             "No response")) ;;
  getattr self.error_desc.

Definition get_alarms (node_id : Z) : M (Midas C) PyVal :=
  call (serial_write (py "SA1?" ++ CR) node_id) ;;
  midas_response <- call (serial_response (py "get")) ;;
  setattr self.alarm
    (VStr (match_case midas_response
             [case "00000000 00000001" "vacuum/pressure alarm";
              case "00000000 00000010" "pump timeout";
              case "00000000 00000100" "ink level warning";
              case "00000000 00001000" "ink bottle empty";
              case "00000000 00010000" "Tank thermocouple fault";
              case "00000000 00100000" "degass fault (if fitted)";
              case "00000000 01000000" "recirc fault (if recirc version)";
              case "00000000 10000000"
                "Failsafe alarm (float switch in the air bottle)";
              case "00000001 00000000"
                "meniscus pump running to slow (bleed filter blocked)";
              case "00000010 00000000"
                "meniscus pump running to fast (air leak)";
              case "00000100 00000000"
                "recirc pump running to slow (blockage in pipework/head)";
              case "00001000 00000000"
                "recirc pump running to fast (leak/pump fault)"]
             "None")) ;;
  getattr self.alarm.

Definition get_system_running_hours (node_id : Z) : M (Midas C) PyVal :=
  call (serial_write (py "SVN?" ++ CR) node_id) ;;
  response <- call (serial_response (py "get")) ;;
  setattr self.running_hours response ;;
  getattr self.running_hours.

Definition get_alam_masks (node_id : Z) : M (Midas C) PyVal :=
  call (serial_write (py "SAB?" ++ CR) node_id) ;;
  response <- call (serial_response (py "get")) ;;
  setitem self.alarm_masks actual response ;;
  getitem self.alarm_masks actual.

Definition set_alam_masks (alarm_mark : str) (node_id : Z)
    : M (Midas C) PyVal :=
  let command := py "SAB," ++ alarm_mark ++ CR in
  call (serial_write command node_id) ;;
  midas_response <- call (serial_response (py "set")) ;;
  (if is_True midas_response then
     setitem self.alarm_masks demand (VStr alarm_mark) ;;
     get_alam_masks node_id ;;
     ret tt
   else ret tt) ;;
  ret midas_response.

Definition get_critical_alarms (node_id : Z) : M (Midas C) PyVal :=
  call (serial_write (py "SAM?" ++ CR) node_id) ;;
  response <- call (serial_response (py "get")) ;;
  setitem self.critical_alarms actual response ;;
  getitem self.critical_alarms actual.

Definition set_critical_alarms (alarm_mask : str) (node_id : Z)
    : M (Midas C) PyVal :=
  let command := py "SAM," ++ alarm_mask ++ CR in
  call (serial_write command node_id) ;;
  midas_response <- call (serial_response (py "set")) ;;
  (if is_True midas_response then
     setitem self.critical_alarms demand (VStr alarm_mask) ;;
     get_critical_alarms node_id ;;
     ret tt
   else ret tt) ;;
  ret midas_response.

Definition clear_alarms (node_id : Z) : M (Midas C) PyVal :=
  let command := py "SA1,0" ++ CR in
  call (serial_write command node_id) ;;
  midas_response <- call (serial_response (py "set")) ;;
  (if is_True midas_response then
     get_alarms node_id ;;
     ret tt
   else ret tt) ;;
  ret midas_response.

Definition get_fill_cycles (node_id : Z) : M (Midas C) PyVal :=
  call (serial_write (py "SFC?" ++ CR) node_id) ;;
  response <- call (serial_response (py "get")) ;;
  setattr self.fill_cycles response ;;
  getattr self.fill_cycles.

(** *** class Pressures *)

Definition get_return_pressure (node_id : Z) : M (Midas C) PyVal :=
  call (serial_write (py "SVP?" ++ CR) node_id) ;;
  response <- call (serial_response (py "get")) ;;
  setitem self.return_pressure actual response ;;
  getitem self.return_pressure actual.

Definition set_return_pressure (pressure : str) (node_id : Z)
    : M (Midas C) PyVal :=
  let command := py "SVP," ++ pressure ++ CR in
  call (serial_write command node_id) ;;
  midas_response <- call (serial_response (py "set")) ;;
  (if is_True midas_response then
     setitem self.return_pressure demand (VStr pressure) ;;
     get_return_pressure node_id ;;
     ret tt
   else ret tt) ;;
  ret midas_response.

Definition get_non_recirc_meniscus_pressure (node_id : Z) : M (Midas C) PyVal :=
  call (serial_write (py "SV2?" ++ CR) node_id) ;;
  response <- call (serial_response (py "get")) ;;
  setitem self.non_recirc_meniscus_pressure actual response ;;
  getitem self.non_recirc_meniscus_pressure actual.

Definition set_non_recirc_meniscus_pressure (pressure : str) (node_id : Z)
    : M (Midas C) PyVal :=
  let command := py "SV2," ++ pressure ++ CR in
  call (serial_write command node_id) ;;
  midas_response <- call (serial_response (py "set")) ;;
  (if is_True midas_response then
     setitem self.non_recirc_meniscus_pressure demand (VStr pressure) ;;
     get_non_recirc_meniscus_pressure node_id ;;
     ret tt
   else ret tt) ;;
  ret midas_response.

Definition get_infeed_pressure (node_id : Z) : M (Midas C) PyVal :=
  call (serial_write (py "SRS?" ++ CR) node_id) ;;
  response <- call (serial_response (py "get")) ;;
  setitem self.infeed_pressure actual response ;;
  getitem self.infeed_pressure actual.

Definition set_infeed_pressure (pressure : str) (node_id : Z)
    : M (Midas C) PyVal :=
  let command := py "SRS," ++ pressure ++ CR in
  call (serial_write command node_id) ;;
  midas_response <- call (serial_response (py "set")) ;;
  (if is_True midas_response then
     setitem self.infeed_pressure demand (VStr pressure) ;;
     get_infeed_pressure node_id ;;
     ret tt
   else ret tt) ;;
  ret midas_response.

Definition get_pressure_sensor_type (node_id : Z) : M (Midas C) PyVal :=
  call (serial_write (py "SSR?" ++ CR) node_id) ;;
  response <- call (serial_response (py "get")) ;;
  setitem self.pressure_sensor_type actual response ;;
  getitem self.pressure_sensor_type actual.

Definition set_pressure_sensor_type (sensor_type : str) (node_id : Z)
    : M (Midas C) PyVal :=
  let command := py "SSR," ++ sensor_type ++ CR in
  call (serial_write command node_id) ;;
  midas_response <- call (serial_response (py "set")) ;;
  (if is_True midas_response then
     setitem self.pressure_sensor_type demand (VStr sensor_type) ;;
     get_pressure_sensor_type node_id ;;
     ret tt
   else ret tt) ;;
  ret midas_response.

(** *** class Temperatures *)

Definition get_heater_temp_1 (node_id : Z) : M (Midas C) PyVal :=
  call (serial_write (py "ST3?" ++ CR) node_id) ;;
  response <- call (serial_response (py "get")) ;;
  setattr self.temp_heater_1 response ;;
  getattr self.temp_heater_1.

Definition get_tank_temperature (node_id : Z) : M (Midas C) PyVal :=
  call (serial_write (py "SHT?" ++ CR) node_id) ;;
  response <- call (serial_response (py "get")) ;;
  setitem self.tank_temperature actual response ;;
  getitem self.tank_temperature actual.

Definition set_tank_temperature (temperature : str) (node_id : Z)
    : M (Midas C) PyVal :=
  let command := py "SHT," ++ temperature ++ CR in
  call (serial_write command node_id) ;;
  midas_response <- call (serial_response (py "set")) ;;
  (if is_True midas_response then
     setitem self.tank_temperature demand (VStr temperature) ;;
     get_tank_temperature node_id ;;
     ret tt
   else ret tt) ;;
  ret midas_response.

Definition get_aux_temperture (node_id : Z) : M (Midas C) PyVal :=
  call (serial_write (py "SH2?" ++ CR) node_id) ;;
  response <- call (serial_response (py "get")) ;;
  setitem self.aux_temp actual response ;;
  getitem self.aux_temp actual.

Definition set_aux_temperture (temperature : str) (node_id : Z)
    : M (Midas C) PyVal :=
  let command := py "SH2," ++ temperature ++ CR in
  call (serial_write command node_id) ;;
  midas_response <- call (serial_response (py "set")) ;;
  (if is_True midas_response then
     setitem self.aux_temp demand (VStr temperature) ;;
     get_aux_temperture node_id ;;
     ret tt
   else ret tt) ;;
  ret midas_response.

Definition get_preheat_time (node_id : Z) : M (Midas C) PyVal :=
  call (serial_write (py "SPH?" ++ CR) node_id) ;;
  response <- call (serial_response (py "get")) ;;
  setitem self.preheat_time actual response ;;
  getitem self.preheat_time actual.

Definition set_preheat_time (time : str) (node_id : Z) : M (Midas C) PyVal :=
  let command := py "SPH," ++ time ++ CR in
  call (serial_write command node_id) ;;
  midas_response <- call (serial_response (py "set")) ;;
  (if is_True midas_response then
     setitem self.preheat_time demand (VStr time) ;;
     get_preheat_time node_id ;;
     ret tt
   else ret tt) ;;
  ret midas_response.

Definition get_heater_1_duty (node_id : Z) : M (Midas C) PyVal :=
  call (serial_write (py "SHD?" ++ CR) node_id) ;;
  response <- call (serial_response (py "get")) ;;
  setitem self.heater_1_duty actual response ;;
  getitem self.heater_1_duty actual.

Definition set_heater_1_duty (duty : str) (node_id : Z) : M (Midas C) PyVal :=
  let command := py "SHD," ++ duty ++ CR in
  call (serial_write command node_id) ;;
  midas_response <- call (serial_response (py "set")) ;;
  (if is_True midas_response then
     setitem self.heater_1_duty demand (VStr duty) ;;
     get_heater_1_duty node_id ;;
     ret tt
   else ret tt) ;;
  ret midas_response.

Definition get_heater_2_duty (node_id : Z) : M (Midas C) PyVal :=
  call (serial_write (py "SHA?" ++ CR) node_id) ;;
  response <- call (serial_response (py "get")) ;;
  setitem self.heater_2_duty actual response ;;
  getitem self.heater_2_duty actual.

Definition set_heater_2_duty (duty : str) (node_id : Z) : M (Midas C) PyVal :=
  let command := py "SHA," ++ duty ++ CR in
  call (serial_write command node_id) ;;
  midas_response <- call (serial_response (py "set")) ;;
  (if is_True midas_response then
     setitem self.heater_2_duty demand (VStr duty) ;;
     get_heater_2_duty node_id ;;
     ret tt
   else ret tt) ;;
  ret midas_response.

(** *** class Pumps *)

Definition get_pump_timeout (node_id : Z) : M (Midas C) PyVal :=
  call (serial_write (py "STO?" ++ CR) node_id) ;;
  response <- call (serial_response (py "get")) ;;
  setitem self.pump_timeout actual response ;;
  getitem self.pump_timeout actual.

Definition set_pump_timeout (timeout : str) (node_id : Z) : M (Midas C) PyVal :=
  let command := py "STO," ++ timeout ++ CR in
  call (serial_write command node_id) ;;
  midas_response <- call (serial_response (py "set")) ;;
  (if is_True midas_response then
     setitem self.pump_timeout demand (VStr timeout) ;;
     get_pump_timeout node_id ;;
     ret tt
   else ret tt) ;;
  ret midas_response.

Definition get_manual_recirc_speed (node_id : Z) : M (Midas C) PyVal :=
  call (serial_write (py "SMR?" ++ CR) node_id) ;;
  response <- call (serial_response (py "get")) ;;
  setitem self.manual_recirc_speed actual response ;;
  getitem self.manual_recirc_speed actual.

Definition set_manual_recirc_speed (speed : str) (node_id : Z)
    : M (Midas C) PyVal :=
  let command := py "SMR," ++ speed ++ CR in
  call (serial_write command node_id) ;;
  midas_response <- call (serial_response (py "set")) ;;
  (if is_True midas_response then
     setitem self.manual_recirc_speed demand (VStr speed) ;;
     get_manual_recirc_speed node_id ;;
     ret tt
   else ret tt) ;;
  ret midas_response.

Definition get_fill_speed (node_id : Z) : M (Midas C) PyVal :=
  call (serial_write (py "SFS?" ++ CR) node_id) ;;
  response <- call (serial_response (py "get")) ;;
  setitem self.fill_speed actual response ;;
  getitem self.fill_speed actual.

Definition set_fill_speed (speed : str) (node_id : Z) : M (Midas C) PyVal :=
  let command := py "SFS," ++ speed ++ CR in
  call (serial_write command node_id) ;;
  midas_response <- call (serial_response (py "set")) ;;
  (if is_True midas_response then
     setitem self.fill_speed demand (VStr speed) ;;
     get_fill_speed node_id ;;
     ret tt
   else ret tt) ;;
  ret midas_response.

Definition get_recirc_pump_command (node_id : Z) : M (Midas C) PyVal :=
  call (serial_write (py "SVR?" ++ CR) node_id) ;;
  response <- call (serial_response (py "get")) ;;
  setattr self.recirc_command response ;;
  getattr self.recirc_command.

Definition get_manual_meniscus (node_id : Z) : M (Midas C) PyVal :=
  call (serial_write (py "SNI?" ++ CR) node_id) ;;
  response <- call (serial_response (py "get")) ;;
  setitem self.manual_meniscus_state actual response ;;
  getitem self.manual_meniscus_state actual.

Definition set_manual_meniscus (enable : str) (node_id : Z)
    : M (Midas C) PyVal :=
  let command := py "SNI," ++ enable ++ CR in
  call (serial_write command node_id) ;;
  midas_response <- call (serial_response (py "set")) ;;
  (if is_True midas_response then
     setitem self.manual_meniscus_state demand (VStr enable) ;;
     get_manual_meniscus node_id ;;
     ret tt
   else ret tt) ;;
  ret midas_response.

Definition get_meniscus_pump_command (node_id : Z) : M (Midas C) PyVal :=
  call (serial_write (py "SVM?" ++ CR) node_id) ;;
  response <- call (serial_response (py "get")) ;;
  setattr self.meniscus_command response ;;
  getattr self.meniscus_command.

(** *** class Purge *)

Definition get_purge_pressure (node_id : Z) : M (Midas C) PyVal :=
  call (serial_write (py "SPP?" ++ CR) node_id) ;;
  response <- call (serial_response (py "get")) ;;
  setitem self.purge_pressure actual response ;;
  getitem self.purge_pressure actual.

Definition set_purge_pressure (pressure : str) (node_id : Z)
    : M (Midas C) PyVal :=
  let command := py "SPP," ++ pressure ++ CR in
  call (serial_write command node_id) ;;
  midas_response <- call (serial_response (py "set")) ;;
  (if is_True midas_response then
     setitem self.purge_pressure demand (VStr pressure) ;;
     get_purge_pressure node_id ;;
     ret tt
   else ret tt) ;;
  ret midas_response.

Definition get_purge_status (node_id : Z) : M (Midas C) PyVal :=
  call (serial_write (py "STP?" ++ CR) node_id) ;;
  response <- call (serial_response (py "get")) ;;
  setitem self.purge_type actual response ;;
  getitem self.purge_type actual.

Definition triger_purge (purge_type : str) (node_id : Z) : M (Midas C) PyVal :=
  let command := py "STP," ++ purge_type ++ CR in
  call (serial_write command node_id) ;;
  midas_response <- call (serial_response (py "set")) ;;
  (if is_True midas_response then
     setitem self.purge_type demand (VStr purge_type) ;;
     get_purge_status node_id ;;
     ret tt
   else ret tt) ;;
  ret midas_response.

Definition get_purge_time (node_id : Z) : M (Midas C) PyVal :=
  call (serial_write (py "SPT?" ++ CR) node_id) ;;
  response <- call (serial_response (py "get")) ;;
  setitem self.purge_time actual response ;;
  getitem self.purge_time actual.

Definition set_purge_time (time : str) (node_id : Z) : M (Midas C) PyVal :=
  let command := py "SPT," ++ time ++ CR in
  call (serial_write command node_id) ;;
  midas_response <- call (serial_response (py "set")) ;;
  (if is_True midas_response then
     setitem self.purge_time demand (VStr time) ;;
     get_purge_time node_id ;;
     ret tt
   else ret tt) ;;
  ret midas_response.

Definition get_local_purge_time (node_id : Z) : M (Midas C) PyVal :=
  call (serial_write (py "SLP?" ++ CR) node_id) ;;
  response <- call (serial_response (py "get")) ;;
  setitem self.local_purge_time actual response ;;
  getitem self.local_purge_time actual.

Definition set_local_purge_time (time : str) (node_id : Z)
    : M (Midas C) PyVal :=
  let command := py "SLP," ++ time ++ CR in
  call (serial_write command node_id) ;;
  midas_response <- call (serial_response (py "set")) ;;
  (if is_True midas_response then
     setitem self.local_purge_time demand (VStr time) ;;
     get_local_purge_time node_id ;;
     ret tt
   else ret tt) ;;
  ret midas_response.

(** *** class Midas *)

Definition get_firmware_version (node_id : Z) : M (Midas C) PyVal :=
  call (serial_write (py "SVN?" ++ CR) node_id) ;;
  response <- call (serial_response (py "get")) ;;
  setattr self.firmware_version response ;;
  getattr self.firmware_version.

Definition get_serial_number (node_id : Z) : M (Midas C) PyVal :=
  call (serial_write (py "SSN?" ++ CR) node_id) ;;
  response <- call (serial_response (py "get")) ;;
  setattr self.serial_number response ;;
  getattr self.serial_number.

Definition get_system_type (node_id : Z) : M (Midas C) PyVal :=
  call (serial_write (py "SUT?" ++ CR) node_id) ;;
  response <- call (serial_response (py "get")) ;;
  setattr self.system_type response ;;
  getattr self.system_type.

Definition set_active_heads (heads : str) (node_id : Z) : M (Midas C) PyVal :=
  let command := py "SAH," ++ heads ++ CR in
  call (serial_write command node_id) ;;
  midas_response <- call (serial_response (py "set")) ;;
  (if is_True midas_response then
     setattr self.active_heads (VStr heads)
   else ret tt) ;;
  ret midas_response.

Definition get_bypass_time (node_id : Z) : M (Midas C) PyVal :=
  call (serial_write (py "SBT?" ++ CR) node_id) ;;
  response <- call (serial_response (py "get")) ;;
  setitem self.bypass_time actual response ;;
  getitem self.bypass_time actual.

Definition set_bypass_time (time : str) (node_id : Z) : M (Midas C) PyVal :=
  let command := py "SBT," ++ time ++ CR in
  call (serial_write command node_id) ;;
  midas_response <- call (serial_response (py "set")) ;;
  (if is_True midas_response then
     setitem self.bypass_time demand (VStr time) ;;
     get_bypass_time node_id ;;
     ret tt
   else ret tt) ;;
  ret midas_response.

Definition set_startup_function (function : str) (node_id : Z)
    : M (Midas C) PyVal :=
  let command := py "SCS," ++ function ++ CR in
  call (serial_write command node_id) ;;
  midas_response <- call (serial_response (py "set")) ;;
  (if is_True midas_response then
     setattr self.statup_function (VStr function)
   else ret tt) ;;
  ret midas_response.

Definition get_drain_status (node_id : Z) : M (Midas C) PyVal :=
  call (serial_write (py "SDS?" ++ CR) node_id) ;;
  response <- call (serial_response (py "get")) ;;
  setitem self.drain_status actual response ;;
  getitem self.drain_status actual.

Definition set_drain (drain_type : str) (node_id : Z) : M (Midas C) PyVal :=
  let command := py "SDS," ++ drain_type ++ CR in
  call (serial_write command node_id) ;;
  midas_response <- call (serial_response (py "set")) ;;
  (if is_True midas_response then
     setitem self.drain_status demand (VStr drain_type) ;;
     get_drain_status node_id ;;
     ret tt
   else ret tt) ;;
  ret midas_response.

Definition get_prime_system_status (node_id : Z) : M (Midas C) PyVal :=
  call (serial_write (py "SPR?" ++ CR) node_id) ;;
  response <- call (serial_response (py "get")) ;;
  setitem self.prime_state actual response ;;
  getitem self.prime_state actual.

Definition set_prime_system (enable : str) (node_id : Z) : M (Midas C) PyVal :=
  let command := py "SPR," ++ enable ++ CR in
  call (serial_write command node_id) ;;
  midas_response <- call (serial_response (py "set")) ;;
  (if is_True midas_response then
     setitem self.prime_state demand (VStr enable) ;;
     get_prime_system_status node_id ;;
     ret tt
   else ret tt) ;;
  ret midas_response.

Definition get_network_id (node_id : Z) : M (Midas C) PyVal :=
  call (serial_write (py "SNI?" ++ CR) node_id) ;;
  response <- call (serial_response (py "get")) ;;
  setattr self.network_id response ;;
  getattr self.network_id.

Definition set_network_id (network_id : str) (node_id : Z)
    : M (Midas C) PyVal :=
  let command := py "SNI," ++ network_id ++ CR in
  call (serial_write command node_id) ;;
  midas_response <- call (serial_response (py "set")) ;;
  (if is_True midas_response then
     setattr self.network_id (VStr network_id) ;;
     get_network_id node_id ;;
     ret tt
   else ret tt) ;;
  ret midas_response.

Definition get_enable_bits (node_id : Z) : M (Midas C) PyVal :=
  call (serial_write (py "SEB?" ++ CR) node_id) ;;
  response <- call (serial_response (py "get")) ;;
  setitem self.enable_bits actual response ;;
  getitem self.enable_bits actual.

Definition set_enable_bits (enable_bits : str) (node_id : Z)
    : M (Midas C) PyVal :=
  let command := py "SEB," ++ enable_bits ++ CR in
  call (serial_write command node_id) ;;
  midas_response <- call (serial_response (py "set")) ;;
  (if is_True midas_response then
     setitem self.enable_bits demand (VStr enable_bits) ;;
     get_enable_bits node_id ;;
     ret tt
   else ret tt) ;;
  ret midas_response.

Definition get_extended_enable_bits (node_id : Z) : M (Midas C) PyVal :=
  call (serial_write (py "SEE?" ++ CR) node_id) ;;
  response <- call (serial_response (py "get")) ;;
  setitem self.extended_enable_bits actual response ;;
  getitem self.extended_enable_bits actual.

Definition set_extended_enable_bits (enable_bits : str) (node_id : Z)
    : M (Midas C) PyVal :=
  let command := py "SEE," ++ enable_bits ++ CR in
  call (serial_write command node_id) ;;
  midas_response <- call (serial_response (py "set")) ;;
  (if is_True midas_response then
     setitem self.extended_enable_bits demand (VStr enable_bits) ;;
     get_extended_enable_bits node_id ;;
     ret tt
   else ret tt) ;;
  ret midas_response.

Definition get_dynamic_calibration_state (node_id : Z) : M (Midas C) PyVal :=
  call (serial_write (py "SDC?" ++ CR) node_id) ;;
  response <- call (serial_response (py "get")) ;;
  setitem self.dynamic_calibration_state actual response ;;
  getitem self.dynamic_calibration_state actual.

Definition set_dynamic_calibration_state (calibration : str) (node_id : Z)
    : M (Midas C) PyVal :=
  let command := py "SDC," ++ calibration ++ CR in
  call (serial_write command node_id) ;;
  midas_response <- call (serial_response (py "set")) ;;
  (if is_True midas_response then
     setitem self.dynamic_calibration_state demand (VStr calibration) ;;
     get_dynamic_calibration_state node_id ;;
     ret tt
   else ret tt) ;;
  ret midas_response.


(** *** The accessors by name *)

Definition call_getter (g : Getter) : Z -> M (Midas C) PyVal :=
  match g with
  | Get_status_word => get_status_word
  | Get_status_bit => get_status_bit
  | Get_last_error_code => get_last_error_code
  | Get_alarms => get_alarms
  | Get_system_running_hours => get_system_running_hours
  | Get_alam_masks => get_alam_masks
  | Get_critical_alarms => get_critical_alarms
  | Get_fill_cycles => get_fill_cycles
  | Get_return_pressure => get_return_pressure
  | Get_non_recirc_meniscus_pressure => get_non_recirc_meniscus_pressure
  | Get_infeed_pressure => get_infeed_pressure
  | Get_pressure_sensor_type => get_pressure_sensor_type
  | Get_heater_temp_1 => get_heater_temp_1
  | Get_tank_temperature => get_tank_temperature
  | Get_aux_temperture => get_aux_temperture
  | Get_preheat_time => get_preheat_time
  | Get_heater_1_duty => get_heater_1_duty
  | Get_heater_2_duty => get_heater_2_duty
  | Get_pump_timeout => get_pump_timeout
  | Get_manual_recirc_speed => get_manual_recirc_speed
  | Get_fill_speed => get_fill_speed
  | Get_recirc_pump_command => get_recirc_pump_command
  | Get_manual_meniscus => get_manual_meniscus
  | Get_meniscus_pump_command => get_meniscus_pump_command
  | Get_purge_pressure => get_purge_pressure
  | Get_purge_status => get_purge_status
  | Get_purge_time => get_purge_time
  | Get_local_purge_time => get_local_purge_time
  | Get_firmware_version => get_firmware_version
  | Get_serial_number => get_serial_number
  | Get_system_type => get_system_type
  | Get_bypass_time => get_bypass_time
  | Get_drain_status => get_drain_status
  | Get_prime_system_status => get_prime_system_status
  | Get_network_id => get_network_id
  | Get_enable_bits => get_enable_bits
  | Get_extended_enable_bits => get_extended_enable_bits
  | Get_dynamic_calibration_state => get_dynamic_calibration_state
  end.

Definition call_setter (s : Setter) (value : str) : Z -> M (Midas C) PyVal :=
  match s with
  | Set_alam_masks => set_alam_masks value
  | Set_critical_alarms => set_critical_alarms value
  | Clear_alarms => clear_alarms
  | Set_return_pressure => set_return_pressure value
  | Set_non_recirc_meniscus_pressure => set_non_recirc_meniscus_pressure value
  | Set_infeed_pressure => set_infeed_pressure value
  | Set_pressure_sensor_type => set_pressure_sensor_type value
  | Set_tank_temperature => set_tank_temperature value
  | Set_aux_temperture => set_aux_temperture value
  | Set_preheat_time => set_preheat_time value
  | Set_heater_1_duty => set_heater_1_duty value
  | Set_heater_2_duty => set_heater_2_duty value
  | Set_pump_timeout => set_pump_timeout value
  | Set_manual_recirc_speed => set_manual_recirc_speed value
  | Set_fill_speed => set_fill_speed value
  | Set_manual_meniscus => set_manual_meniscus value
  | Set_purge_pressure => set_purge_pressure value
  | Triger_purge => triger_purge value
  | Set_purge_time => set_purge_time value
  | Set_local_purge_time => set_local_purge_time value
  | Set_active_heads => set_active_heads value
  | Set_bypass_time => set_bypass_time value
  | Set_startup_function => set_startup_function value
  | Set_drain => set_drain value
  | Set_prime_system => set_prime_system value
  | Set_network_id => set_network_id value
  | Set_enable_bits => set_enable_bits value
  | Set_extended_enable_bits => set_extended_enable_bits value
  | Set_dynamic_calibration_state => set_dynamic_calibration_state value
  end.

End Accessors.

(** ** The command catalogue *)

(** The three-letter code each accessor puts on the wire, the getter a
    setter calls after a confirmed set, and the dictionary each accessor
    caches into. *)
Definition query_code (g : Getter) : str :=
  match g with
  | Get_status_word => py "STA"
  | Get_status_bit => py "SSB"
  | Get_last_error_code => py "SLE"
  | Get_alarms => py "SA1"
  | Get_system_running_hours => py "SVN"
  | Get_alam_masks => py "SAB"
  | Get_critical_alarms => py "SAM"
  | Get_fill_cycles => py "SFC"
  | Get_return_pressure => py "SVP"
  | Get_non_recirc_meniscus_pressure => py "SV2"
  | Get_infeed_pressure => py "SRS"
  | Get_pressure_sensor_type => py "SSR"
  | Get_heater_temp_1 => py "ST3"
  | Get_tank_temperature => py "SHT"
  | Get_aux_temperture => py "SH2"
  | Get_preheat_time => py "SPH"
  | Get_heater_1_duty => py "SHD"
  | Get_heater_2_duty => py "SHA"
  | Get_pump_timeout => py "STO"
  | Get_manual_recirc_speed => py "SMR"
  | Get_fill_speed => py "SFS"
  | Get_recirc_pump_command => py "SVR"
  | Get_manual_meniscus => py "SNI"
  | Get_meniscus_pump_command => py "SVM"
  | Get_purge_pressure => py "SPP"
  | Get_purge_status => py "STP"
  | Get_purge_time => py "SPT"
  | Get_local_purge_time => py "SLP"
  | Get_firmware_version => py "SVN"
  | Get_serial_number => py "SSN"
  | Get_system_type => py "SUT"
  | Get_bypass_time => py "SBT"
  | Get_drain_status => py "SDS"
  | Get_prime_system_status => py "SPR"
  | Get_network_id => py "SNI"
  | Get_enable_bits => py "SEB"
  | Get_extended_enable_bits => py "SEE"
  | Get_dynamic_calibration_state => py "SDC"
  end.

Definition set_code (s : Setter) : str :=
  match s with
  | Set_alam_masks => py "SAB"
  | Set_critical_alarms => py "SAM"
  | Clear_alarms => py "SA1"
  | Set_return_pressure => py "SVP"
  | Set_non_recirc_meniscus_pressure => py "SV2"
  | Set_infeed_pressure => py "SRS"
  | Set_pressure_sensor_type => py "SSR"
  | Set_tank_temperature => py "SHT"
  | Set_aux_temperture => py "SH2"
  | Set_preheat_time => py "SPH"
  | Set_heater_1_duty => py "SHD"
  | Set_heater_2_duty => py "SHA"
  | Set_pump_timeout => py "STO"
  | Set_manual_recirc_speed => py "SMR"
  | Set_fill_speed => py "SFS"
  | Set_manual_meniscus => py "SNI"
  | Set_purge_pressure => py "SPP"
  | Triger_purge => py "STP"
  | Set_purge_time => py "SPT"
  | Set_local_purge_time => py "SLP"
  | Set_active_heads => py "SAH"
  | Set_bypass_time => py "SBT"
  | Set_startup_function => py "SCS"
  | Set_drain => py "SDS"
  | Set_prime_system => py "SPR"
  | Set_network_id => py "SNI"
  | Set_enable_bits => py "SEB"
  | Set_extended_enable_bits => py "SEE"
  | Set_dynamic_calibration_state => py "SDC"
  end.

Definition readback (s : Setter) : option Getter :=
  match s with
  | Set_alam_masks => Some Get_alam_masks
  | Set_critical_alarms => Some Get_critical_alarms
  | Clear_alarms => Some Get_alarms
  | Set_return_pressure => Some Get_return_pressure
  | Set_non_recirc_meniscus_pressure => Some Get_non_recirc_meniscus_pressure
  | Set_infeed_pressure => Some Get_infeed_pressure
  | Set_pressure_sensor_type => Some Get_pressure_sensor_type
  | Set_tank_temperature => Some Get_tank_temperature
  | Set_aux_temperture => Some Get_aux_temperture
  | Set_preheat_time => Some Get_preheat_time
  | Set_heater_1_duty => Some Get_heater_1_duty
  | Set_heater_2_duty => Some Get_heater_2_duty
  | Set_pump_timeout => Some Get_pump_timeout
  | Set_manual_recirc_speed => Some Get_manual_recirc_speed
  | Set_fill_speed => Some Get_fill_speed
  | Set_manual_meniscus => Some Get_manual_meniscus
  | Set_purge_pressure => Some Get_purge_pressure
  | Triger_purge => Some Get_purge_status
  | Set_purge_time => Some Get_purge_time
  | Set_local_purge_time => Some Get_local_purge_time
  | Set_active_heads => None
  | Set_bypass_time => Some Get_bypass_time
  | Set_startup_function => None
  | Set_drain => Some Get_drain_status
  | Set_prime_system => Some Get_prime_system_status
  | Set_network_id => Some Get_network_id
  | Set_enable_bits => Some Get_enable_bits
  | Set_extended_enable_bits => Some Get_extended_enable_bits
  | Set_dynamic_calibration_state => Some Get_dynamic_calibration_state
  end.

Definition cache_of (s : Setter) : option self.dict :=
  match s with
  | Set_alam_masks => Some self.alarm_masks
  | Set_critical_alarms => Some self.critical_alarms
  | Set_return_pressure => Some self.return_pressure
  | Set_non_recirc_meniscus_pressure => Some self.non_recirc_meniscus_pressure
  | Set_infeed_pressure => Some self.infeed_pressure
  | Set_pressure_sensor_type => Some self.pressure_sensor_type
  | Set_tank_temperature => Some self.tank_temperature
  | Set_aux_temperture => Some self.aux_temp
  | Set_preheat_time => Some self.preheat_time
  | Set_heater_1_duty => Some self.heater_1_duty
  | Set_heater_2_duty => Some self.heater_2_duty
  | Set_pump_timeout => Some self.pump_timeout
  | Set_manual_recirc_speed => Some self.manual_recirc_speed
  | Set_fill_speed => Some self.fill_speed
  | Set_manual_meniscus => Some self.manual_meniscus_state
  | Set_purge_pressure => Some self.purge_pressure
  | Triger_purge => Some self.purge_type
  | Set_purge_time => Some self.purge_time
  | Set_local_purge_time => Some self.local_purge_time
  | Set_bypass_time => Some self.bypass_time
  | Set_drain => Some self.drain_status
  | Set_prime_system => Some self.prime_state
  | Set_enable_bits => Some self.enable_bits
  | Set_extended_enable_bits => Some self.extended_enable_bits
  | Set_dynamic_calibration_state => Some self.dynamic_calibration_state
  | _ => None
  end.

Definition actual_of (g : Getter) : option self.dict :=
  match g with
  | Get_alam_masks => Some self.alarm_masks
  | Get_critical_alarms => Some self.critical_alarms
  | Get_return_pressure => Some self.return_pressure
  | Get_non_recirc_meniscus_pressure => Some self.non_recirc_meniscus_pressure
  | Get_infeed_pressure => Some self.infeed_pressure
  | Get_pressure_sensor_type => Some self.pressure_sensor_type
  | Get_tank_temperature => Some self.tank_temperature
  | Get_aux_temperture => Some self.aux_temp
  | Get_preheat_time => Some self.preheat_time
  | Get_heater_1_duty => Some self.heater_1_duty
  | Get_heater_2_duty => Some self.heater_2_duty
  | Get_pump_timeout => Some self.pump_timeout
  | Get_manual_recirc_speed => Some self.manual_recirc_speed
  | Get_fill_speed => Some self.fill_speed
  | Get_manual_meniscus => Some self.manual_meniscus_state
  | Get_purge_pressure => Some self.purge_pressure
  | Get_purge_status => Some self.purge_type
  | Get_purge_time => Some self.purge_time
  | Get_local_purge_time => Some self.local_purge_time
  | Get_bypass_time => Some self.bypass_time
  | Get_drain_status => Some self.drain_status
  | Get_prime_system_status => Some self.prime_state
  | Get_enable_bits => Some self.enable_bits
  | Get_extended_enable_bits => Some self.extended_enable_bits
  | Get_dynamic_calibration_state => Some self.dynamic_calibration_state
  | _ => None
  end.

(** * Vocabulary of the statements *)

(** ** States of the port *)

Definition tuple_index_error : Exc :=
  {| exc_class := TypeError;
     exc_str := py "string indices must be integers, not 'tuple'" |}.

(** The port after one more [read_until]. *)
Definition after_read (p : Serial) : Serial :=
  {| is_open := is_open p; written := written p;
     incoming := incoming p; reads := S (reads p) |}.

(** The port after [write(data)]. *)
Definition after_write (data : list Byte.byte) (p : Serial) : Serial :=
  {| is_open := is_open p; written := written p ++ [data];
     incoming := incoming p; reads := reads p |}.

(** The frame [serial_write] builds: the command, behind the node letter
    unless the node is 0. *)
Definition addressed (command : str) (node_id : Z) : str :=
  if (node_id =? 0)%Z then command
  else Z.to_N (64 + node_id) :: command.

(** The bytes of the node letter, none for node 0. *)
Definition node_prefix (node_id : Z) : list Byte.byte :=
  if (node_id =? 0)%Z then [] else [byte_of (Z.to_N (64 + node_id))].

(** The byte strings handed to the port so far. *)
Definition wire (w : Midas MidasSerial.t) : list (list Byte.byte) :=
  match MidasSerial.serial (serialconn w) with
  | Some p => written p
  | None => []
  end.

(** ** Commands *)

(** The command a setter hands to [serial_write]. *)
Definition set_command (s : Setter) (value : str) : str :=
  match s with
  | Clear_alarms => py "SA1,0" ++ CR
  | _ => set_code s ++ py "," ++ value ++ CR
  end.

(** The command a getter hands to [serial_write]. *)
Definition query_command (g : Getter) : str :=
  query_code g ++ py "?" ++ CR.

Definition with_conn {C} (conn : C) (w : Midas C) : Midas C :=
  {| serialconn := conn; attrs := attrs w; dicts := dicts w |}.

(** Whether the outcome of [serial_response] passes the test
    [midas_response is True] of the setters. *)
Definition confirmed (o : Outcome PyVal) : bool :=
  match o with
  | Ret v => is_True v
  | Raise _ => false
  end.

(** ** Declared ranges *)

Fixpoint digits (s : str) (acc : Z) : option Z :=
  match s with
  | [] => Some acc
  | c :: s' =>
      if ((48 <=? c) && (c <=? 57))%N
      then digits s' (10 * acc + Z.of_N (c - 48))%Z
      else None
  end.

(** The integer a decimal string denotes. *)
Definition decimal (s : str) : option Z :=
  match s with
  | [] => None
  | 45%N :: (_ :: _) as s' => option_map Z.opp (digits s' 0)
  | _ => digits s 0
  end.

(** The ranges the docstrings of the setters give. *)
Definition declared_range (s : Setter) : option (Z * Z) :=
  match s with
  | Set_return_pressure | Set_non_recirc_meniscus_pressure =>
      Some (0, 1500)%Z
  | Set_infeed_pressure | Set_fill_speed | Set_purge_time => Some (0, 255)%Z
  | Set_tank_temperature | Set_aux_temperture | Set_local_purge_time =>
      Some (0, 60)%Z
  | Set_preheat_time | Set_bypass_time => Some (0, 600)%Z
  | Set_heater_1_duty | Set_heater_2_duty => Some (0, 100)%Z
  | Set_pump_timeout => Some (0, 90)%Z
  | Set_manual_recirc_speed => Some (0, 700)%Z
  | Set_purge_pressure => Some (0, 500)%Z
  | Set_network_id => Some (1, 15)%Z
  | Set_enable_bits | Set_extended_enable_bits => Some (0, 65535)%Z
  | _ => None
  end.

Definition out_of_range (s : Setter) (value : str) : bool :=
  match declared_range s, decimal value with
  | Some (lo, hi), Some n => ((n <? lo) || (hi <? n))%Z
  | _, _ => false
  end.

(** ** Fixtures *)

(** A line that answers with the listed events, then with empty reads. *)
Definition device (events : list RxEvent) : nat -> RxEvent :=
  fun n => nth n events (RxStr []).

Definition opened (events : list RxEvent) : MidasSerial.t :=
  snd (MidasSerial.open_connection (device events) MidasSerial.__init__).

Definition closed (events : list RxEvent) : MidasSerial.t :=
  snd (MidasSerial.close_connection (opened events)).

Definition timed_out : Exc :=
  {| exc_class := TimeoutError; exc_str := py "timed out" |}.

(** A scripted connection, the stand-in a unit test hands to an accessor
    class in place of a [MidasSerial]: it records the commands and answers
    from a list. *)
Record Scripted := {
  replies : list PyVal;
  commands : list (str * Z)
}.

#[global] Instance Scripted_Serialconn : Serialconn Scripted := {
  serial_write command node_id := fun c =>
    (Ret tt,
     {| replies := replies c;
        commands := commands c ++ [(command, node_id)] |});
  serial_response _ := fun c =>
    match replies c with
    | v :: rest => (Ret v, {| replies := rest; commands := commands c |})
    | [] => (Raise {| exc_class := OtherError;
                      exc_str := py "no reply scripted" |}, c)
    end
}.

(** A connection scripted to confirm the set and to answer the query. *)
Definition confirming (readback : str) : Midas Scripted :=
  Midas__init__ {| replies := [VBool true; VStr readback]; commands := [] |}.

(** ** class Midas: opening and closing *)


Definition close_serial : M (Midas MidasSerial.t) unit :=
  call MidasSerial.close_connection.

(** ** Caches and sessions *)

(** The plain attribute a getter assigns, for the getters that do not use
    an actual/demand dictionary. *)
Definition attr_of (g : Getter) : option self.attr :=
  match g with
  | Get_status_word => Some self.status_word
  | Get_status_bit => Some self.status_bit
  | Get_last_error_code => Some self.error_desc
  | Get_alarms => Some self.alarm
  | Get_system_running_hours => Some self.running_hours
  | Get_fill_cycles => Some self.fill_cycles
  | Get_heater_temp_1 => Some self.temp_heater_1
  | Get_recirc_pump_command => Some self.recirc_command
  | Get_meniscus_pump_command => Some self.meniscus_command
  | Get_firmware_version => Some self.firmware_version
  | Get_serial_number => Some self.serial_number
  | Get_system_type => Some self.system_type
  | Get_network_id => Some self.network_id
  | _ => None
  end.

Definition all_getters : list Getter :=
  [Get_status_word; Get_status_bit; Get_last_error_code; Get_alarms;
   Get_system_running_hours; Get_alam_masks; Get_critical_alarms;
   Get_fill_cycles; Get_return_pressure; Get_non_recirc_meniscus_pressure;
   Get_infeed_pressure; Get_pressure_sensor_type; Get_heater_temp_1;
   Get_tank_temperature; Get_aux_temperture; Get_preheat_time;
   Get_heater_1_duty; Get_heater_2_duty; Get_pump_timeout;
   Get_manual_recirc_speed; Get_fill_speed; Get_recirc_pump_command;
   Get_manual_meniscus; Get_meniscus_pump_command; Get_purge_pressure;
   Get_purge_status; Get_purge_time; Get_local_purge_time;
   Get_firmware_version; Get_serial_number; Get_system_type; Get_bypass_time;
   Get_drain_status; Get_prime_system_status; Get_network_id;
   Get_enable_bits; Get_extended_enable_bits; Get_dynamic_calibration_state].

(** One call of the facade, and a caller making one call after the other,
    going on whether a call returned or raised. *)
Inductive Call :=
| CallGet (g : Getter) (node_id : Z)
| CallSet (s : Setter) (value : str) (node_id : Z).

Definition perform {C} `{Serialconn C} (c : Call) : M (Midas C) PyVal :=
  match c with
  | CallGet g node_id => call_getter g node_id
  | CallSet s value node_id => call_setter s value node_id
  end.

Fixpoint session {C} `{Serialconn C} (calls : list Call) (w : Midas C)
    : Midas C :=
  match calls with
  | [] => w
  | c :: rest => session rest (snd (perform c w))
  end.

(** A cache that is still the empty string of [__init__], or holds an
    exception object. *)
Definition empty_or_exception (v : PyVal) : Prop :=
  v = VStr [] \/ exists ex, v = VExc ex.

(** No cache holds anything the device sent. *)
Definition never_payload {C} (w : Midas C) : Prop :=
  (forall d, dicts w d demand = VStr [])
  /\ (forall d, empty_or_exception (dicts w d actual))
  /\ (forall a,
        empty_or_exception (attrs w a)
        \/ (a = self.error_desc /\ attrs w a = VStr (py "No response"))
        \/ (a = self.alarm /\ attrs w a = VStr (py "None"))).

(** What a getter caches when [serial_response] hands it the exception
    object [ex]. *)
Definition cached_on_failure (g : Getter) (ex : Exc) : PyVal :=
  match g with
  | Get_last_error_code => VStr (py "No response")
  | Get_alarms => VStr (py "None")
  | _ => VExc ex
  end.

(** ** Error codes and alarm words *)

(** The codes [get_last_error_code] has a description for. *)
Definition error_codes : list string :=
  ["0"; "10"; "20"; "30"; "40"; "50"; "60"; "70"]%string.

Definition known_error_code (response : PyVal) : bool :=
  existsb (fun code => py_eq response (py code)) error_codes.

(** The text [get_alarms] stores for a response, read off by running it. *)
Definition alarm_text (response : PyVal) : PyVal :=
  attrs (snd (get_alarms 0
                (Midas__init__ {| replies := [response]; commands := [] |})))
    self.alarm.

(** A 16-bit word as the device documentation writes it: two groups of
    eight binary digits, most significant first. *)
Definition bit_char (n i : N) : N :=
  if N.testbit n i then 49%N else 48%N.

Definition alarm_word (n : N) : str :=
  map (bit_char n) [15; 14; 13; 12; 11; 10; 9; 8]%N
  ++ [32%N]
  ++ map (bit_char n) [7; 6; 5; 4; 3; 2; 1; 0]%N.

(** The words with exactly one of the twelve alarm bits set. *)
Definition single_alarm_bits : list N :=
  [1; 2; 4; 8; 16; 32; 64; 128; 256; 512; 1024; 2048]%N.

Definition chr_range_error : Exc :=
  {| exc_class := ValueError;
     exc_str := py "chr() arg not in range(0x110000)" |}.

Definition encode_error : Exc :=
  {| exc_class := UnicodeEncodeError;
     exc_str := py "'utf-8' codec can't encode character" |}.

(** ** Tactics *)

Create HintDb getters.
Create HintDb setters.

#[global] Hint Unfold
  get_status_word get_status_bit get_last_error_code get_alarms
  get_system_running_hours get_alam_masks get_critical_alarms
  get_fill_cycles get_return_pressure get_non_recirc_meniscus_pressure
  get_infeed_pressure get_pressure_sensor_type get_heater_temp_1
  get_tank_temperature get_aux_temperture get_preheat_time get_heater_1_duty
  get_heater_2_duty get_pump_timeout get_manual_recirc_speed get_fill_speed
  get_recirc_pump_command get_manual_meniscus get_meniscus_pump_command
  get_purge_pressure get_purge_status get_purge_time get_local_purge_time
  get_firmware_version get_serial_number get_system_type get_bypass_time
  get_drain_status get_prime_system_status get_network_id get_enable_bits
  get_extended_enable_bits get_dynamic_calibration_state
  : getters.

#[global] Hint Unfold
  set_alam_masks set_critical_alarms clear_alarms set_return_pressure
  set_non_recirc_meniscus_pressure set_infeed_pressure
  set_pressure_sensor_type set_tank_temperature set_aux_temperture
  set_preheat_time set_heater_1_duty set_heater_2_duty set_pump_timeout
  set_manual_recirc_speed set_fill_speed set_manual_meniscus
  set_purge_pressure triger_purge set_purge_time set_local_purge_time
  set_active_heads set_bypass_time set_startup_function set_drain
  set_prime_system set_network_id set_enable_bits set_extended_enable_bits
  set_dynamic_calibration_state
  : setters.

(** Unfold the accessor an enumeration constant stands for. *)
Ltac unfold_getter := cbn [call_getter]; autounfold with getters; cbv zeta.
Ltac unfold_setter := cbn [call_setter]; autounfold with setters; cbv zeta.

(** Use an equation [H] on a connection call whose command is written
    differently in the goal. *)
Ltac run_conn H :=
  lazymatch type of H with
  | ?f ?c0 ?n ?s = _ =>
      repeat match goal with
      | |- context [f ?c n s] => progress change c with c0
      end
  | _ => idtac
  end;
  rewrite H; cbn [fst snd serialconn attrs dicts].

(** * Properties *)

(** ** Built-ins *)

Lemma str_eqb_refl (s : str) : str_eqb s s = true.
Proof.
  induction s as [|c s IH]; simpl; [reflexivity|].
  now rewrite N.eqb_refl, IH.
Qed.

Lemma str_eqb_eq (a b : str) : str_eqb a b = true <-> a = b.
Proof.
  split; [|intros ->; apply str_eqb_refl].
  revert b; induction a as [|x a IH]; intros [|y b]; simpl; try discriminate.
  - reflexivity.
  - intros E. apply andb_true_iff in E as [Exy Eab].
    apply N.eqb_eq in Exy. now rewrite Exy, (IH b Eab).
Qed.

Lemma chr_in_range (i : Z) :
  (0 <= i < 1114112)%Z -> chr i = Ret [Z.to_N i].
Proof.
  intros [Hlo Hhi]. unfold chr.
  apply Z.leb_le in Hlo. apply Z.ltb_lt in Hhi.
  now rewrite Hlo, Hhi.
Qed.

Lemma ord_at : ord "@" = 64%Z.
Proof. reflexivity. Qed.

Lemma encode_utf8_app (a b : str) :
  encode_utf8 (a ++ b) =
  match encode_utf8 a, encode_utf8 b with
  | Some x, Some y => Some (x ++ y)
  | _, _ => None
  end.
Proof.
  induction a as [|c a IH]; simpl.
  - now destruct (encode_utf8 b).
  - rewrite IH.
    destruct (encode_point c), (encode_utf8 a), (encode_utf8 b);
      try reflexivity.
    now rewrite app_assoc.
Qed.

(** Text below U+0080 is sent as it is, one byte per character. *)
Lemma encode_utf8_ascii (s : str) :
  Forall (fun c => (c < 128)%N) s -> encode_utf8 s = Some (map byte_of s).
Proof.
  induction 1 as [|c s Hc _ IH]; simpl; [reflexivity|].
  unfold encode_point. apply N.ltb_lt in Hc. now rewrite Hc, IH.
Qed.

(** ** MidasSerial *)

(** What [serial_response] does, by the outcome of the read. *)
Lemma serial_response_unfold (self : MidasSerial.t) (p : Serial)
    (response_type : str) :
  MidasSerial.serial self = Some p ->
  MidasSerial.serial_response response_type self =
  match incoming p (reads p) with
  | RxStr _ =>
      (Raise tuple_index_error,
       {| MidasSerial.serial := Some (after_read p);
          MidasSerial.stdout := MidasSerial.stdout self |})
  | RxRaise ex =>
      if is_TimeoutError ex then
        (Ret (VExc ex),
         {| MidasSerial.serial := Some (after_read p);
            MidasSerial.stdout :=
              MidasSerial.stdout self
              ++ [py "Error: Timeout, exception: " ++ exc_str ex] |})
      else if is_SerialException ex then
        (Ret (VExc ex),
         {| MidasSerial.serial := Some (after_read p);
            MidasSerial.stdout :=
              MidasSerial.stdout self
              ++ [py "Error: Port Closed, exception: " ++ exc_str ex] |})
      else
        (Raise ex,
         {| MidasSerial.serial := Some (after_read p);
            MidasSerial.stdout := MidasSerial.stdout self |})
  end.
Proof.
  intros Hp.
  unfold MidasSerial.serial_response, bind, MidasSerial.serial_port_read.
  rewrite Hp.
  destruct (incoming p (reads p)) as [response|ex].
  - reflexivity.
  - destruct (is_TimeoutError ex); [reflexivity|].
    destruct (is_SerialException ex); reflexivity.
Qed.

Lemma serial_response_no_port (self : MidasSerial.t) (response_type : str) :
  MidasSerial.serial self = None ->
  MidasSerial.serial_response response_type self =
  (Raise AttributeError_serial, self).
Proof.
  intros Hp.
  unfold MidasSerial.serial_response, bind, MidasSerial.serial_port_read.
  now rewrite Hp.
Qed.

Lemma serial_write_unfold (self : MidasSerial.t) (p : Serial)
    (command : str) (node_id : Z) :
  MidasSerial.serial self = Some p ->
  (-64 <= node_id < 1114048)%Z ->
  MidasSerial.serial_write command node_id self =
  if is_open p then
    match encode_utf8 (addressed command node_id) with
    | Some data =>
        (Ret tt,
         {| MidasSerial.serial := Some (after_write data p);
            MidasSerial.stdout := MidasSerial.stdout self |})
    | None =>
        (Raise {| exc_class := UnicodeEncodeError;
                  exc_str := py "'utf-8' codec can't encode character" |},
         self)
    end
  else (Ret tt, self).
Proof.
  intros Hp Hnode.
  unfold MidasSerial.serial_write, addressed, bind.
  rewrite ord_at.
  destruct (node_id =? 0)%Z.
  - unfold ret at 1. unfold MidasSerial.serial_is_open. rewrite Hp.
    destruct (is_open p); [|reflexivity].
    unfold MidasSerial.lift, bytes, MidasSerial.serial_port_write.
    destruct (encode_utf8 command); [|reflexivity].
    now rewrite Hp.
  - unfold MidasSerial.lift at 1. rewrite chr_in_range by lia.
    unfold ret at 1. unfold MidasSerial.serial_is_open. rewrite Hp.
    destruct (is_open p); [|reflexivity].
    unfold MidasSerial.lift, bytes, MidasSerial.serial_port_write.
    change ([Z.to_N (64 + node_id)] ++ command)
      with (Z.to_N (64 + node_id) :: command).
    destruct (encode_utf8 (Z.to_N (64 + node_id) :: command)); [|reflexivity].
    now rewrite Hp.
Qed.

(** ** Accessors over any connection *)

Section AccessorLaws.

Context {C : Type} `{Serialconn C}.

Lemma update_item_same d k v (f : self.dict -> key -> PyVal) :
  update_item d k v f d k = v.
Proof. unfold update_item. destruct d, k; reflexivity. Qed.

Lemma update_item_other_key d k k' v (f : self.dict -> key -> PyVal) :
  k' <> k -> update_item d k v f d k' = f d k'.
Proof.
  intros Hk. unfold update_item.
  destruct k, k'; try contradiction; now rewrite andb_false_r.
Qed.

Lemma update_item_other_dict d d' k k' v (f : self.dict -> key -> PyVal) :
  d' <> d -> update_item d k v f d' k' = f d' k'.
Proof.
  intros Hd. unfold update_item.
  destruct (self.dict_beq d' d) eqn:E; [|reflexivity].
  apply self.internal_dict_dec_bl in E. contradiction.
Qed.

Lemma update_attr_same a v (f : self.attr -> PyVal) :
  update_attr a v f a = v.
Proof. unfold update_attr. destruct a; reflexivity. Qed.

Lemma update_attr_other a a' v (f : self.attr -> PyVal) :
  a' <> a -> update_attr a v f a' = f a'.
Proof.
  intros Ha. unfold update_attr.
  destruct (self.attr_beq a' a) eqn:E; [|reflexivity].
  apply self.internal_attr_dec_bl in E. contradiction.
Qed.

(** A getter whose write raises stops there. *)
Lemma call_getter_write_raises (g : Getter) (node_id : Z) (w : Midas C)
    (ex : Exc) (c1 : C) :
  serial_write (query_command g) node_id (serialconn w) = (Raise ex, c1) ->
  call_getter g node_id w = (Raise ex, with_conn c1 w).
Proof.
  intros Hw. destruct g; unfold_getter; unfold bind, call;
    run_conn Hw; reflexivity.
Qed.

(** After a getter, the connection is where its one write and its one
    read left it. *)
Lemma call_getter_conn (g : Getter) (node_id : Z) (w : Midas C)
    (c1 c2 : C) (o : Outcome PyVal) :
  serial_write (query_command g) node_id (serialconn w) = (Ret tt, c1) ->
  serial_response (py "get") c1 = (o, c2) ->
  serialconn (snd (call_getter g node_id w)) = c2.
Proof.
  intros Hw Hr. destruct g; unfold_getter; unfold bind, call;
    run_conn Hw; run_conn Hr; destruct o; reflexivity.
Qed.

(** A getter of an actual/demand parameter stores what the classifier
    returned under ['actual'] and returns it. *)
Lemma call_getter_dict (g : Getter) (d : self.dict) (node_id : Z)
    (w : Midas C) (c1 c2 : C) (v : PyVal) :
  actual_of g = Some d ->
  serial_write (query_command g) node_id (serialconn w) = (Ret tt, c1) ->
  serial_response (py "get") c1 = (Ret v, c2) ->
  call_getter g node_id w =
  (Ret v,
   {| serialconn := c2; attrs := attrs w;
      dicts := update_item d actual v (dicts w) |}).
Proof.
  intros Hd Hw Hr.
  destruct g; try discriminate Hd; injection Hd as <-;
    unfold_getter; unfold bind, call;
    run_conn Hw; run_conn Hr; reflexivity.
Qed.

(** A setter whose set is not answered by [True] hands the classifier's
    outcome on and touches no cache. *)
Lemma call_setter_unconfirmed (s : Setter) (value : str) (node_id : Z)
    (w : Midas C) (c1 c2 : C) (o : Outcome PyVal) :
  serial_write (set_command s value) node_id (serialconn w) = (Ret tt, c1) ->
  serial_response (py "set") c1 = (o, c2) ->
  o <> Ret (VBool true) ->
  call_setter s value node_id w = (o, with_conn c2 w).
Proof.
  intros Hw Hr Ho.
  destruct s; unfold_setter; unfold bind, call;
    run_conn Hw; run_conn Hr;
    (destruct o as [[?|[|]|?]|?]; [|contradiction Ho| | |]; reflexivity).
Qed.

Lemma call_setter_write_raises (s : Setter) (value : str) (node_id : Z)
    (w : Midas C) (ex : Exc) (c1 : C) :
  serial_write (set_command s value) node_id (serialconn w) = (Raise ex, c1) ->
  call_setter s value node_id w = (Raise ex, with_conn c1 w).
Proof.
  intros Hw. destruct s; unfold_setter; unfold bind, call;
    run_conn Hw; reflexivity.
Qed.

(** A confirmed set on an actual/demand parameter: ['demand'] takes the
    value, then the paired getter runs. *)
Lemma call_setter_confirmed (s : Setter) (d : self.dict) (g : Getter)
    (value : str) (node_id : Z) (w : Midas C) (c1 c2 : C) :
  cache_of s = Some d ->
  readback s = Some g ->
  serial_write (set_command s value) node_id (serialconn w) = (Ret tt, c1) ->
  serial_response (py "set") c1 = (Ret (VBool true), c2) ->
  call_setter s value node_id w =
  let r := call_getter g node_id
             {| serialconn := c2; attrs := attrs w;
                dicts := update_item d demand (VStr value) (dicts w) |} in
  (match fst r with
   | Ret _ => Ret (VBool true)
   | Raise ex => Raise ex
   end, snd r).
Proof.
  intros Hd Hg Hw Hr.
  destruct s; try discriminate Hd; injection Hd as <-; injection Hg as <-;
    unfold_setter; unfold bind at 1 2 3, call;
    run_conn Hw; run_conn Hr; cbn [is_True call_getter];
    unfold bind, setitem; cbn [fst snd serialconn attrs dicts];
    match goal with
    | |- context [match ?get node_id ?w0 with _ => _ end] =>
        destruct (get node_id w0) as [[?|?] ?]
    end; reflexivity.
Qed.

End AccessorLaws.

(** ** Accessors over MidasSerial *)

Lemma encode_addressed (command : str) (node_id : Z) (data : list Byte.byte) :
  (0 <= node_id <= 15)%Z ->
  encode_utf8 command = Some data ->
  encode_utf8 (addressed command node_id) = Some (node_prefix node_id ++ data).
Proof.
  intros Hnode Hdata. unfold addressed, node_prefix.
  destruct (node_id =? 0)%Z; [exact Hdata|].
  assert (Hlt : (Z.to_N (64 + node_id) <? 128)%N = true)
    by (apply N.ltb_lt; lia).
  cbn [encode_utf8]. unfold encode_point. now rewrite Hlt, Hdata.
Qed.

(** Whatever the port answers, [serial_response] leaves the port one read
    further and does not return [True]. *)
Lemma serial_response_port (self : MidasSerial.t) (p : Serial)
    (response_type : str) :
  MidasSerial.serial self = Some p ->
  exists o out,
    MidasSerial.serial_response response_type self =
    (o, {| MidasSerial.serial := Some (after_read p);
           MidasSerial.stdout := out |})
    /\ o <> Ret (VBool true).
Proof.
  intros Hp. rewrite (serial_response_unfold _ _ _ Hp).
  destruct (incoming p (reads p)) as [response|ex].
  - eexists _, _. split; [reflexivity|discriminate].
  - destruct (is_TimeoutError ex);
      [eexists _, _; split; [reflexivity|discriminate]|].
    destruct (is_SerialException ex);
      eexists _, _; (split; [reflexivity|discriminate]).
Qed.

(** On an open port every getter puts exactly its query on the wire. *)
Lemma getter_wire (g : Getter) (node_id : Z) (w : Midas MidasSerial.t)
    (p : Serial) (data : list Byte.byte) :
  MidasSerial.serial (serialconn w) = Some p ->
  is_open p = true ->
  (0 <= node_id <= 15)%Z ->
  encode_utf8 (query_command g) = Some data ->
  wire (snd (call_getter g node_id w)) =
  written p ++ [node_prefix node_id ++ data].
Proof.
  intros Hp Hopen Hnode Hdata.
  pose proof (serial_write_unfold (serialconn w) p (query_command g)
                node_id Hp ltac:(lia)) as Hw.
  rewrite Hopen, (encode_addressed _ _ _ Hnode Hdata) in Hw.
  destruct (serial_response_port
              {| MidasSerial.serial :=
                   Some (after_write (node_prefix node_id ++ data) p);
                 MidasSerial.stdout := MidasSerial.stdout (serialconn w) |}
              _ (py "get") eq_refl) as (o & out & Hr & _).
  unfold wire. rewrite (@call_getter_conn _ MidasSerial_Serialconn
             g node_id w _ _ o Hw Hr).
  reflexivity.
Qed.

(** On an open port every setter puts exactly its set command on the
    wire, whatever the value. *)
Lemma setter_wire (s : Setter) (value : str) (node_id : Z)
    (w : Midas MidasSerial.t) (p : Serial) (data : list Byte.byte) :
  MidasSerial.serial (serialconn w) = Some p ->
  is_open p = true ->
  (0 <= node_id <= 15)%Z ->
  encode_utf8 (set_command s value) = Some data ->
  wire (snd (call_setter s value node_id w)) =
  written p ++ [node_prefix node_id ++ data].
Proof.
  intros Hp Hopen Hnode Hdata.
  pose proof (serial_write_unfold (serialconn w) p (set_command s value)
                node_id Hp ltac:(lia)) as Hw.
  rewrite Hopen, (encode_addressed _ _ _ Hnode Hdata) in Hw.
  destruct (serial_response_port
              {| MidasSerial.serial :=
                   Some (after_write (node_prefix node_id ++ data) p);
                 MidasSerial.stdout := MidasSerial.stdout (serialconn w) |}
              _ (py "set") eq_refl) as (o & out & Hr & Ho).
  rewrite (@call_setter_unconfirmed _ MidasSerial_Serialconn
             s value node_id w _ _ o Hw Hr Ho).
  reflexivity.
Qed.

(** Every setter with an actual/demand cache has a paired getter using the
    same code and the same dictionary. *)
Lemma paired_getter (s : Setter) (d : self.dict) :
  cache_of s = Some d ->
  exists g, readback s = Some g /\ actual_of g = Some d
            /\ query_code g = set_code s.
Proof.
  destruct s; intros Hd; try discriminate Hd; injection Hd as <-;
    eexists; (split; [reflexivity|split; reflexivity]).
Qed.

(** * The claims *)

(** ** The response classifier *)

(** C2.  Whatever text the read returns, [serial_response] raises the
    [TypeError] of indexing a string with a tuple, one read further and with
    nothing printed; and whenever [serial_response] does return a value,
    the read had raised a [TimeoutError] or a [SerialException] and the
    value is that exception object, so it is never a payload, a boolean or
    an error token. *)
Theorem serial_response_raises_on_every_frame
    (self : MidasSerial.t) (p : Serial) (response_type : str) :
  MidasSerial.serial self = Some p ->
  (forall response : str,
     incoming p (reads p) = RxStr response ->
     MidasSerial.serial_response response_type self =
     (Raise tuple_index_error,
      {| MidasSerial.serial := Some (after_read p);
         MidasSerial.stdout := MidasSerial.stdout self |})
     /\ exc_class tuple_index_error = TypeError)
  /\ (forall (v : PyVal) (self' : MidasSerial.t),
        MidasSerial.serial_response response_type self = (Ret v, self') ->
        exists ex,
          incoming p (reads p) = RxRaise ex
          /\ (is_TimeoutError ex || is_SerialException ex) = true
          /\ v = VExc ex).
Proof.
  intros Hp. rewrite (serial_response_unfold self p response_type Hp).
  split.
  - intros response ->. split; reflexivity.
  - intros v self'. destruct (incoming p (reads p)) as [response|ex].
    + discriminate.
    + destruct (is_TimeoutError ex) eqn:Et.
      * intros E. injection E as <- _. exists ex. now rewrite Et.
      * destruct (is_SerialException ex) eqn:Es; [|discriminate].
        intros E. injection E as <- _. exists ex. now rewrite Et, Es.
Qed.

Lemma serial_response_raises_on_every_frame_witness :
  MidasSerial.serial_response (py "get") (opened [RxStr (py "128,A,C")]) =
  (Raise tuple_index_error,
   {| MidasSerial.serial :=
        Some (after_read {| is_open := true; written := [];
                            incoming := device [RxStr (py "128,A,C")];
                            reads := 0 |});
      MidasSerial.stdout := [] |})
  /\ exc_class tuple_index_error = TypeError.
Proof.
  apply (proj1 (serial_response_raises_on_every_frame
                  (opened [RxStr (py "128,A,C")])
                  {| is_open := true; written := [];
                     incoming := device [RxStr (py "128,A,C")];
                     reads := 0 |}
                  (py "get") eq_refl) (py "128,A,C")).
  reflexivity.
Defined.

(** C6, at the confirmation frame: a set answered by [",A,C"] does not
    return [True]; [serial_response] raises the [TypeError] of the
    classification step instead. *)
Theorem set_confirmation_frame_raises :
  fst (MidasSerial.serial_response (py "set") (opened [RxStr (py ",A,C")]))
  = Raise tuple_index_error
  /\ str_eqb (py ",A,C") (py ",A,C") = true.
Proof. split; reflexivity. Qed.

(** C7, at two error frames: with ['?'] or ['>'] three characters before
    the end, [serial_response] returns no error token; it raises the same
    [TypeError]. *)
Theorem error_frames_raise :
  str_getitem (py "?,C") (KInt (len (py "?,C") - 3)) = Ret (py "?")
  /\ fst (MidasSerial.serial_response (py "get") (opened [RxStr (py "?,C")]))
     = Raise tuple_index_error
  /\ str_getitem (py ">,C") (KInt (len (py ">,C") - 3)) = Ret (py ">")
  /\ fst (MidasSerial.serial_response (py "set") (opened [RxStr (py ">,C")]))
     = Raise tuple_index_error.
Proof. repeat split; reflexivity. Qed.

(** C8.  When the read raises a [TimeoutError] or a [SerialException],
    [serial_response] returns that very exception object; it has read once,
    written nothing, and printed one line. *)
Theorem serial_response_returns_transport_error
    (self : MidasSerial.t) (p : Serial) (response_type : str) (ex : Exc) :
  MidasSerial.serial self = Some p ->
  incoming p (reads p) = RxRaise ex ->
  (is_TimeoutError ex || is_SerialException ex) = true ->
  MidasSerial.serial_response response_type self =
  (Ret (VExc ex),
   {| MidasSerial.serial :=
        Some {| is_open := is_open p; written := written p;
                incoming := incoming p; reads := S (reads p) |};
      MidasSerial.stdout :=
        MidasSerial.stdout self
        ++ [(if is_TimeoutError ex
             then py "Error: Timeout, exception: "
             else py "Error: Port Closed, exception: ") ++ exc_str ex] |}).
Proof.
  intros Hp Hev Hex.
  rewrite (serial_response_unfold self p response_type Hp), Hev.
  destruct (is_TimeoutError ex); [reflexivity|].
  simpl in Hex. now rewrite Hex.
Qed.

Lemma serial_response_returns_transport_error_witness :
  MidasSerial.serial_response (py "get") (opened [RxRaise timed_out]) =
  (Ret (VExc timed_out),
   {| MidasSerial.serial :=
        Some {| is_open := true; written := [];
                incoming := device [RxRaise timed_out]; reads := 1 |};
      MidasSerial.stdout :=
        [py "Error: Timeout, exception: timed out"] |}).
Proof.
  apply (serial_response_returns_transport_error
           (opened [RxRaise timed_out])
           {| is_open := true; written := [];
              incoming := device [RxRaise timed_out]; reads := 0 |}
           (py "get") timed_out);
    reflexivity.
Defined.

(** ** The frame codec *)

(** C9.  On a port that reports itself not open, [serial_write] returns
    normally and leaves the whole connection object as it was: nothing is
    written, nothing printed.  [node_id] ranges over the integers [chr]
    accepts once added to [ord('@')], the node addresses 0 to 15 among
    them. *)
Theorem serial_write_closed_port_is_noop
    (self : MidasSerial.t) (p : Serial) (command : str) (node_id : Z) :
  MidasSerial.serial self = Some p ->
  is_open p = false ->
  (-64 <= node_id < 1114048)%Z ->
  MidasSerial.serial_write command node_id self = (Ret tt, self).
Proof.
  intros Hp Hclosed Hnode.
  rewrite (serial_write_unfold self p command node_id Hp Hnode).
  now rewrite Hclosed.
Qed.

Lemma serial_write_closed_port_is_noop_witness :
  MidasSerial.serial_write (py "SHT,45" ++ CR) 3 (closed []) =
  (Ret tt, closed []).
Proof.
  apply (serial_write_closed_port_is_noop
           (closed [])
           {| is_open := false; written := [];
              incoming := device []; reads := 0 |}
           (py "SHT,45" ++ CR) 3);
    [reflexivity | reflexivity | lia].
Defined.

Lemma encode_query_command (g : Getter) :
  encode_utf8 (query_command g) = Some (map byte_of (query_command g)).
Proof. destruct g; reflexivity. Qed.

Lemma encode_set_command (s : Setter) (value : str)
    (payload : list Byte.byte) :
  s <> Clear_alarms ->
  encode_utf8 value = Some payload ->
  encode_utf8 (set_command s value) =
  Some (map byte_of (set_code s ++ py ",") ++ payload ++ [byte_of 13]).
Proof.
  intros Hs Hv.
  assert (E : set_command s value = (set_code s ++ py ",") ++ value ++ CR).
  { destruct s; try reflexivity. contradiction. }
  rewrite E, (encode_utf8_app (set_code s ++ py ",")),
    (encode_utf8_app value CR), Hv.
  destruct s; reflexivity.
Qed.

(** C5.  On an open port, for a node address from 0 to 15, [serial_write]
    hands the port the encoded command behind the node prefix: no byte for
    node 0, otherwise the one byte of [chr(ord('@') + node_id)].  Through
    it every getter transmits [<prefix><CODE>?\r], and the first thing
    every setter taking a value transmits is [<prefix><CODE>,<value>\r]. *)
Theorem serial_write_prepends_node_letter
    (self : MidasSerial.t) (p : Serial) (command : str) (node_id : Z)
    (data : list Byte.byte) :
  MidasSerial.serial self = Some p ->
  is_open p = true ->
  (0 <= node_id <= 15)%Z ->
  encode_utf8 command = Some data ->
  MidasSerial.serial_write command node_id self =
  (Ret tt,
   {| MidasSerial.serial := Some (after_write (node_prefix node_id ++ data) p);
      MidasSerial.stdout := MidasSerial.stdout self |})
  /\ (node_id = 0%Z -> node_prefix node_id = [])
  /\ ((1 <= node_id)%Z ->
      chr (ord "@" + node_id) = Ret [Z.to_N (ord "@" + node_id)]
      /\ encode_utf8 [Z.to_N (ord "@" + node_id)] = Some (node_prefix node_id)
      /\ List.length (node_prefix node_id) = 1%nat)
  /\ (forall (g : Getter) (w : Midas MidasSerial.t),
        serialconn w = self ->
        wire (snd (call_getter g node_id w)) =
        written p
        ++ [node_prefix node_id
            ++ map byte_of (query_code g ++ py "?" ++ CR)])
  /\ (forall (s : Setter) (value : str) (payload : list Byte.byte)
             (w : Midas MidasSerial.t),
        serialconn w = self ->
        s <> Clear_alarms ->
        encode_utf8 value = Some payload ->
        exists rest,
          wire (snd (call_setter s value node_id w)) =
          written p
          ++ (node_prefix node_id
              ++ map byte_of (set_code s ++ py ",") ++ payload
              ++ [byte_of 13]) :: rest).
Proof.
  intros Hp Hopen Hnode Hdata. repeat split.
  - rewrite (serial_write_unfold self p command node_id Hp ltac:(lia)).
    now rewrite Hopen, (encode_addressed command node_id data Hnode Hdata).
  - intros ->. reflexivity.
  - rewrite ord_at. apply chr_in_range. lia.
  - rewrite ord_at. unfold node_prefix.
    replace (node_id =? 0)%Z with false by (symmetry; apply Z.eqb_neq; lia).
    cbn [encode_utf8]. unfold encode_point.
    replace (Z.to_N (64 + node_id) <? 128)%N with true
      by (symmetry; apply N.ltb_lt; lia).
    reflexivity.
  - unfold node_prefix.
    replace (node_id =? 0)%Z with false by (symmetry; apply Z.eqb_neq; lia).
    reflexivity.
  - intros g w <-.
    apply (getter_wire g node_id w p _ Hp Hopen Hnode
             (encode_query_command g)).
  - intros s value payload w <- Hs Hv. exists [].
    rewrite (setter_wire s value node_id w p _ Hp Hopen Hnode
               (encode_set_command s value payload Hs Hv)).
    reflexivity.
Qed.

Lemma serial_write_prepends_node_letter_witness :
  MidasSerial.serial_write (py "SHT,45" ++ CR) 3 (opened []) =
  (Ret tt,
   {| MidasSerial.serial :=
        Some {| is_open := true;
                written := [map byte_of (py "CSHT,45" ++ CR)];
                incoming := device []; reads := 0 |};
      MidasSerial.stdout := [] |}).
Proof.
  apply (proj1 (serial_write_prepends_node_letter
                  (opened [])
                  {| is_open := true; written := [];
                     incoming := device []; reads := 0 |}
                  (py "SHT,45" ++ CR) 3 (map byte_of (py "SHT,45" ++ CR))
                  eq_refl eq_refl ltac:(lia) eq_refl)).
Defined.

(** ** Write operations *)

(** C3 (as amended).  No setter checks its value.  On an open port, for any
    value at all, in or out of the range its docstring gives, the first
    thing the setter does is to transmit its set command carrying that
    value. *)
Theorem set_transmits_unchecked_value
    (s : Setter) (value : str) (node_id : Z) (w : Midas MidasSerial.t)
    (p : Serial) (data : list Byte.byte) :
  MidasSerial.serial (serialconn w) = Some p ->
  is_open p = true ->
  (0 <= node_id <= 15)%Z ->
  encode_utf8 (set_command s value) = Some data ->
  exists rest,
    wire (snd (call_setter s value node_id w)) =
    written p ++ (node_prefix node_id ++ data) :: rest.
Proof.
  intros Hp Hopen Hnode Hdata. exists [].
  apply (setter_wire s value node_id w p data Hp Hopen Hnode Hdata).
Qed.

Lemma set_transmits_unchecked_value_witness :
  exists rest,
    wire (snd (call_setter Set_tank_temperature (py "100") 0
                 (Midas__init__ (opened [])))) =
    [] ++ (node_prefix 0 ++ map byte_of (py "SHT,100" ++ CR)) :: rest.
Proof.
  apply (set_transmits_unchecked_value
           Set_tank_temperature (py "100") 0
           (Midas__init__ (opened []))
           {| is_open := true; written := [];
              incoming := device []; reads := 0 |}
           (map byte_of (py "SHT,100" ++ CR))
           eq_refl eq_refl ltac:(lia) eq_refl).
Defined.

(** C3 as stated fails: 100 is outside the declared 0-60 of the tank
    temperature, yet [set_tank_temperature("100")] performs a transport
    write, the frame [SHT,100\r]. *)
Lemma set_tank_temperature_out_of_range_is_written :
  out_of_range Set_tank_temperature (py "100") = true
  /\ wire (Midas__init__ (opened [])) = []
  /\ wire (snd (set_tank_temperature (py "100") 0
                  (Midas__init__ (opened []))))
     = [map byte_of (py "SHT,100" ++ CR)]
  /\ wire (snd (set_tank_temperature (py "100") 0
                  (Midas__init__ (opened []))))
     <> wire (Midas__init__ (opened [])).
Proof. repeat split; try reflexivity. discriminate. Qed.

(** C1 (as amended).  For every setter of a parameter with an
    actual/demand cache: when [serial_response("set")] returns [True],
    ['demand'] takes the written value, the query of the same code is sent
    at once, and what [serial_response("get")] returns for it becomes
    ['actual']; the setter returns [True]. *)
Theorem confirmed_set_updates_demand_and_reads_back
    {C : Type} `{Serialconn C}
    (s : Setter) (d : self.dict) (value : str) (node_id : Z) (w : Midas C)
    (c1 c2 c3 c4 : C) (v : PyVal) :
  cache_of s = Some d ->
  serial_write (set_command s value) node_id (serialconn w) = (Ret tt, c1) ->
  serial_response (py "set") c1 = (Ret (VBool true), c2) ->
  serial_write (set_code s ++ py "?" ++ CR) node_id c2 = (Ret tt, c3) ->
  serial_response (py "get") c3 = (Ret v, c4) ->
  call_setter s value node_id w =
  (Ret (VBool true),
   {| serialconn := c4; attrs := attrs w;
      dicts := update_item d actual v
                 (update_item d demand (VStr value) (dicts w)) |})
  /\ dicts (snd (call_setter s value node_id w)) d demand = VStr value
  /\ dicts (snd (call_setter s value node_id w)) d actual = v.
Proof.
  intros Hd Hw Hr Hq Hv.
  destruct (paired_getter s d Hd) as (g & Hg & Ha & Hcode).
  assert (E : call_setter s value node_id w =
              (Ret (VBool true),
               {| serialconn := c4; attrs := attrs w;
                  dicts := update_item d actual v
                             (update_item d demand (VStr value) (dicts w)) |})).
  { rewrite (call_setter_confirmed s d g value node_id w c1 c2 Hd Hg Hw Hr).
    cbv zeta. rewrite <- Hcode in Hq.
    rewrite (call_getter_dict g d node_id
               {| serialconn := c2; attrs := attrs w;
                  dicts := update_item d demand (VStr value) (dicts w) |}
               c3 c4 v Ha Hq Hv).
    reflexivity. }
  rewrite E. cbn [snd dicts]. split; [reflexivity|]. split.
  - rewrite update_item_other_key by discriminate. apply update_item_same.
  - apply update_item_same.
Qed.

Lemma confirmed_set_updates_demand_and_reads_back_witness :
  dicts (snd (call_setter Set_tank_temperature (py "45") 3
                (confirming (py "44.8"))))
    self.tank_temperature demand = VStr (py "45")
  /\ dicts (snd (call_setter Set_tank_temperature (py "45") 3
                   (confirming (py "44.8"))))
       self.tank_temperature actual = VStr (py "44.8").
Proof.
  apply (proj2 (@confirmed_set_updates_demand_and_reads_back
                  Scripted Scripted_Serialconn
                  Set_tank_temperature self.tank_temperature (py "45") 3
                  (confirming (py "44.8"))
                  {| replies := [VBool true; VStr (py "44.8")];
                     commands := [(py "SHT,45" ++ CR, 3%Z)] |}
                  {| replies := [VStr (py "44.8")];
                     commands := [(py "SHT,45" ++ CR, 3%Z)] |}
                  {| replies := [VStr (py "44.8")];
                     commands := [(py "SHT,45" ++ CR, 3%Z);
                                  (py "SHT?" ++ CR, 3%Z)] |}
                  {| replies := [];
                     commands := [(py "SHT,45" ++ CR, 3%Z);
                                  (py "SHT?" ++ CR, 3%Z)] |}
                  (VStr (py "44.8"))
                  eq_refl eq_refl eq_refl eq_refl eq_refl)).
Defined.

(** C1 as stated fails at [set_active_heads]: the set is confirmed and the
    value stored, but the set command is the only one sent, no query
    follows it and the scripted answer to a query is left unread. *)
Lemma confirmed_set_active_heads_sends_no_query :
  fst (set_active_heads (py "15") 0 (confirming (py "15")))
  = Ret (VBool true)
  /\ attrs (snd (set_active_heads (py "15") 0 (confirming (py "15"))))
       self.active_heads = VStr (py "15")
  /\ commands (serialconn
                 (snd (set_active_heads (py "15") 0 (confirming (py "15")))))
     = [(py "SAH,15" ++ CR, 0%Z)]
  /\ replies (serialconn
                (snd (set_active_heads (py "15") 0 (confirming (py "15")))))
     = [VStr (py "15")]
  /\ ~ (exists q : str * Z,
          commands (serialconn
                      (snd (set_active_heads (py "15") 0
                              (confirming (py "15")))))
          = [(py "SAH,15" ++ CR, 0%Z); q]).
Proof.
  repeat split; try reflexivity.
  intros [q Hq]. discriminate Hq.
Qed.

(** The setters outside C1 as amended.  [set_active_heads] and
    [set_startup_function] store the value and send nothing more. *)
Lemma confirmed_set_without_readback
    {C : Type} `{Serialconn C}
    (value : str) (node_id : Z) (w : Midas C) (c1 c2 : C) :
  (serial_write (set_command Set_active_heads value) node_id (serialconn w)
   = (Ret tt, c1) ->
   serial_response (py "set") c1 = (Ret (VBool true), c2) ->
   set_active_heads value node_id w =
   (Ret (VBool true),
    {| serialconn := c2;
       attrs := update_attr self.active_heads (VStr value) (attrs w);
       dicts := dicts w |}))
  /\ (serial_write (set_command Set_startup_function value) node_id
        (serialconn w) = (Ret tt, c1) ->
      serial_response (py "set") c1 = (Ret (VBool true), c2) ->
      set_startup_function value node_id w =
      (Ret (VBool true),
       {| serialconn := c2;
          attrs := update_attr self.statup_function (VStr value) (attrs w);
          dicts := dicts w |})).
Proof.
  split; intros Hw Hr; unfold set_active_heads, set_startup_function;
    cbv zeta; unfold bind, call; run_conn Hw; run_conn Hr; reflexivity.
Qed.

(** [set_network_id] keeps one plain attribute: it stores the value there
    and then runs [get_network_id], which overwrites it.  [clear_alarms]
    writes no value and only runs [get_alarms]. *)
Lemma confirmed_set_network_id_and_clear_alarms
    {C : Type} `{Serialconn C}
    (value : str) (node_id : Z) (w : Midas C) (c1 c2 : C) :
  (serial_write (set_command Set_network_id value) node_id (serialconn w)
   = (Ret tt, c1) ->
   serial_response (py "set") c1 = (Ret (VBool true), c2) ->
   set_network_id value node_id w =
   (get_network_id node_id ;; ret (VBool true))
     {| serialconn := c2;
        attrs := update_attr self.network_id (VStr value) (attrs w);
        dicts := dicts w |})
  /\ (serial_write (set_command Clear_alarms value) node_id (serialconn w)
      = (Ret tt, c1) ->
      serial_response (py "set") c1 = (Ret (VBool true), c2) ->
      clear_alarms node_id w =
      (get_alarms node_id ;; ret (VBool true)) (with_conn c2 w)).
Proof.
  split; intros Hw Hr; unfold set_network_id, clear_alarms;
    cbv zeta; unfold bind at 1 2 3, call; run_conn Hw; run_conn Hr;
    cbn [is_True]; unfold bind, setattr, with_conn;
    cbn [fst snd serialconn attrs dicts];
    match goal with
    | |- context [match ?get node_id ?w0 with _ => _ end] =>
        destruct (get node_id w0) as [[?|?] ?]
    end; reflexivity.
Qed.

(** C4.  For every setter: when [serial_response("set")] does not return
    [True], the setter hands on what it did, a value that is not [True] or
    the exception it raised, and every cache, the two of its own parameter
    included, is as before the call. *)
Theorem unconfirmed_set_leaves_caches
    {C : Type} `{Serialconn C}
    (s : Setter) (value : str) (node_id : Z) (w : Midas C)
    (c1 c2 : C) (o : Outcome PyVal) :
  serial_write (set_command s value) node_id (serialconn w) = (Ret tt, c1) ->
  serial_response (py "set") c1 = (o, c2) ->
  confirmed o = false ->
  call_setter s value node_id w = (o, with_conn c2 w)
  /\ o <> Ret (VBool true)
  /\ attrs (snd (call_setter s value node_id w)) = attrs w
  /\ dicts (snd (call_setter s value node_id w)) = dicts w.
Proof.
  intros Hw Hr Hv.
  assert (Ho : o <> Ret (VBool true)) by (intros ->; discriminate Hv).
  rewrite (call_setter_unconfirmed s value node_id w c1 c2 o Hw Hr Ho).
  repeat split. exact Ho.
Qed.

Lemma unconfirmed_set_leaves_caches_witness :
  call_setter Set_purge_pressure (py "250") 0
    (Midas__init__ (opened [RxRaise timed_out])) =
  (Ret (VExc timed_out),
   with_conn
     {| MidasSerial.serial :=
          Some {| is_open := true;
                  written := [map byte_of (py "SPP,250" ++ CR)];
                  incoming := device [RxRaise timed_out]; reads := 1 |};
        MidasSerial.stdout := [py "Error: Timeout, exception: timed out"] |}
     (Midas__init__ (opened [RxRaise timed_out]))).
Proof.
  apply (proj1 (@unconfirmed_set_leaves_caches
                  MidasSerial.t MidasSerial_Serialconn
                  Set_purge_pressure (py "250") 0
                  (Midas__init__ (opened [RxRaise timed_out]))
                  {| MidasSerial.serial :=
                       Some {| is_open := true;
                               written := [map byte_of (py "SPP,250" ++ CR)];
                               incoming := device [RxRaise timed_out];
                               reads := 0 |};
                     MidasSerial.stdout := [] |}
                  {| MidasSerial.serial :=
                       Some {| is_open := true;
                               written := [map byte_of (py "SPP,250" ++ CR)];
                               incoming := device [RxRaise timed_out];
                               reads := 1 |};
                     MidasSerial.stdout :=
                       [py "Error: Timeout, exception: timed out"] |}
                  (Ret (VExc timed_out))
                  eq_refl eq_refl eq_refl)).
Defined.

(** The error tokens, were the classifier to return them, are passed on
    the same way. *)
Example malformed_command_token_leaves_caches :
  call_setter Set_purge_pressure (py "250") 0
    (Midas__init__ {| replies := [VStr (py "?,C")]; commands := [] |}) =
  (Ret (VStr (py "?,C")),
   with_conn {| replies := []; commands := [(py "SPP,250" ++ CR, 0%Z)] |}
     (Midas__init__ {| replies := [VStr (py "?,C")]; commands := [] |})).
Proof. reflexivity. Qed.

(** ** The facade *)

(** C10.  [get_firmware_version] and [get_system_running_hours] perform the
    same exchange, [SVN?\r] then a read, and return the same result; so do
    [get_network_id] and [get_manual_meniscus] with [SNI?\r].  Only the
    cache they store into differs. *)
Theorem shared_query_codes
    {C : Type} `{Serialconn C} (node_id : Z) (w : Midas C) :
  let svn := (call (serial_write (py "SVN?" ++ CR) node_id) ;;
              call (serial_response (py "get"))) w in
  let sni := (call (serial_write (py "SNI?" ++ CR) node_id) ;;
              call (serial_response (py "get"))) w in
  (fst (get_firmware_version node_id w) = fst svn
   /\ serialconn (snd (get_firmware_version node_id w)) = serialconn (snd svn))
  /\ (fst (get_system_running_hours node_id w) = fst svn
      /\ serialconn (snd (get_system_running_hours node_id w))
         = serialconn (snd svn))
  /\ (fst (get_network_id node_id w) = fst sni
      /\ serialconn (snd (get_network_id node_id w)) = serialconn (snd sni))
  /\ (fst (get_manual_meniscus node_id w) = fst sni
      /\ serialconn (snd (get_manual_meniscus node_id w))
         = serialconn (snd sni)).
Proof.
  cbv zeta.
  unfold get_firmware_version, get_system_running_hours, get_network_id,
    get_manual_meniscus, bind, call.
  cbn [fst snd serialconn attrs dicts].
  destruct (serial_write (py "SVN?" ++ CR) node_id (serialconn w))
    as [[[]|ex1] c1];
  destruct (serial_write (py "SNI?" ++ CR) node_id (serialconn w))
    as [[[]|ex2] c2];
  cbn [fst snd serialconn attrs dicts];
  try destruct (serial_response (py "get") c1) as [[v1|e1] c1'];
  try destruct (serial_response (py "get") c2) as [[v2|e2] c2'];
  cbn [fst snd serialconn attrs dicts];
  repeat split.
Qed.


(** * Further properties *)

(** ** serial_write and serial_response in every state *)

Lemma serial_write_bad_node (self : MidasSerial.t) (command : str)
    (node_id : Z) :
  (node_id < -64 \/ 1114047 < node_id)%Z ->
  MidasSerial.serial_write command node_id self
  = (Raise chr_range_error, self).
Proof.
  intros Hnode.
  unfold MidasSerial.serial_write, bind. rewrite ord_at.
  replace (node_id =? 0)%Z with false by (symmetry; apply Z.eqb_neq; lia).
  unfold MidasSerial.lift at 1, chr.
  replace ((0 <=? 64 + node_id) && (64 + node_id <? 1114112))%Z with false.
  - reflexivity.
  - symmetry. apply andb_false_iff.
    destruct Hnode; [left; apply Z.leb_gt|right; apply Z.ltb_ge]; lia.
Qed.

Lemma serial_write_no_port (self : MidasSerial.t) (command : str)
    (node_id : Z) :
  MidasSerial.serial self = None ->
  (-64 <= node_id < 1114048)%Z ->
  MidasSerial.serial_write command node_id self
  = (Raise AttributeError_serial, self).
Proof.
  intros Hp Hnode.
  unfold MidasSerial.serial_write, bind. rewrite ord_at.
  destruct (node_id =? 0)%Z.
  - unfold ret at 1. unfold MidasSerial.serial_is_open. now rewrite Hp.
  - unfold MidasSerial.lift at 1. rewrite chr_in_range by lia.
    unfold ret at 1. unfold MidasSerial.serial_is_open. now rewrite Hp.
Qed.

(** A write that raises leaves the connection object as it was. *)
Lemma serial_write_outcome (self : MidasSerial.t) (command : str)
    (node_id : Z) :
  (exists ex, MidasSerial.serial_write command node_id self = (Raise ex, self))
  \/ (exists self',
        MidasSerial.serial_write command node_id self = (Ret tt, self')).
Proof.
  destruct (Z_lt_dec node_id (-64)) as [Hlo|Hlo];
    [left; eexists; apply serial_write_bad_node; lia|].
  destruct (Z_lt_dec 1114047 node_id) as [Hhi|Hhi];
    [left; eexists; apply serial_write_bad_node; lia|].
  destruct (MidasSerial.serial self) as [p|] eqn:Hp.
  - rewrite (serial_write_unfold self p command node_id Hp ltac:(lia)).
    destruct (is_open p); [|right; eexists; reflexivity].
    destruct (encode_utf8 _);
      [right; eexists; reflexivity|left; eexists; reflexivity].
  - left. eexists. apply serial_write_no_port; [exact Hp|lia].
Qed.

(** [serial_response] raises, or returns the exception object it caught. *)
Lemma serial_response_outcome (self : MidasSerial.t) (response_type : str) :
  exists self',
    (exists ex,
       MidasSerial.serial_response response_type self = (Raise ex, self'))
    \/ (exists ex,
          MidasSerial.serial_response response_type self
          = (Ret (VExc ex), self')).
Proof.
  destruct (MidasSerial.serial self) as [p|] eqn:Hp.
  - rewrite (serial_response_unfold self p response_type Hp).
    destruct (incoming p (reads p)) as [response|ex].
    + eexists. left. eexists. reflexivity.
    + destruct (is_TimeoutError ex);
        [eexists; right; eexists; reflexivity|].
      destruct (is_SerialException ex);
        [eexists; right; eexists; reflexivity
        |eexists; left; eexists; reflexivity].
  - rewrite (serial_response_no_port self response_type Hp).
    eexists. left. eexists. reflexivity.
Qed.

(** X3.  In every state, [serial_write] prints nothing, reads nothing and
    leaves [is_open] alone; it hands the port at most one byte string, and
    only when the port is open and the call returns. *)
Theorem serial_write_effect (self : MidasSerial.t) (command : str)
    (node_id : Z) :
  MidasSerial.stdout (snd (MidasSerial.serial_write command node_id self))
  = MidasSerial.stdout self
  /\ match MidasSerial.serial self with
     | None =>
         snd (MidasSerial.serial_write command node_id self) = self
         /\ exists ex,
              fst (MidasSerial.serial_write command node_id self) = Raise ex
     | Some p =>
         exists p',
           MidasSerial.serial
             (snd (MidasSerial.serial_write command node_id self)) = Some p'
           /\ is_open p' = is_open p
           /\ incoming p' = incoming p
           /\ reads p' = reads p
           /\ (written p' = written p
               \/ (is_open p = true
                   /\ fst (MidasSerial.serial_write command node_id self)
                      = Ret tt
                   /\ exists data, written p' = written p ++ [data]))
     end.
Proof.
  destruct (Z_lt_dec node_id (-64)) as [Hlo|Hlo];
    [|destruct (Z_lt_dec 1114047 node_id) as [Hhi|Hhi]].
  1, 2: rewrite serial_write_bad_node by lia; split; [reflexivity|];
    destruct (MidasSerial.serial self) as [p|] eqn:Hp;
    [exists p; cbn [snd]; rewrite Hp; repeat split; now left
    |split; [reflexivity|eexists; reflexivity]].
  destruct (MidasSerial.serial self) as [p|] eqn:Hp.
  - rewrite (serial_write_unfold self p command node_id Hp ltac:(lia)).
    destruct (is_open p) eqn:Hopen.
    + destruct (encode_utf8 _) as [data|].
      * split; [reflexivity|]. exists (after_write data p).
        repeat split; try assumption.
        right. repeat split. now exists data.
      * split; [reflexivity|]. exists p. cbn [snd]. rewrite Hp.
        repeat split; try assumption. now left.
    + split; [reflexivity|]. exists p. cbn [snd]. rewrite Hp.
      repeat split; try assumption. now left.
  - rewrite (serial_write_no_port self command node_id Hp ltac:(lia)).
    split; [reflexivity|]. split; [reflexivity|]. eexists. reflexivity.
Qed.

(** X4.  In every state, [serial_response] writes nothing to the port and
    leaves [is_open] alone; on an existing port it consumes exactly one
    read and prints at most one line, and what it hands back is an
    exception, raised or returned, never a string or a boolean. *)
Theorem serial_response_effect (self : MidasSerial.t) (response_type : str) :
  match fst (MidasSerial.serial_response response_type self) with
  | Ret (VExc _) | Raise _ => True
  | Ret _ => False
  end
  /\ match MidasSerial.serial self with
     | None => snd (MidasSerial.serial_response response_type self) = self
     | Some p =>
         exists out,
           snd (MidasSerial.serial_response response_type self)
           = {| MidasSerial.serial :=
                  Some {| is_open := is_open p; written := written p;
                          incoming := incoming p; reads := S (reads p) |};
                MidasSerial.stdout := MidasSerial.stdout self ++ out |}
           /\ (List.length out <= 1)%nat
     end.
Proof.
  destruct (MidasSerial.serial self) as [p|] eqn:Hp.
  - rewrite (serial_response_unfold self p response_type Hp).
    destruct (incoming p (reads p)) as [response|ex].
    + split; [exact I|]. exists []. rewrite app_nil_r. split; [reflexivity|].
      simpl. lia.
    + destruct (is_TimeoutError ex).
      * split; [exact I|]. eexists [_]. split; [reflexivity|]. simpl. lia.
      * destruct (is_SerialException ex).
        -- split; [exact I|]. eexists [_]. split; [reflexivity|].
           simpl. lia.
        -- split; [exact I|]. exists []. rewrite app_nil_r.
           split; [reflexivity|]. simpl. lia.
  - rewrite (serial_response_no_port self response_type Hp).
    split; [exact I|reflexivity].
Qed.

(** ** Getters over any connection *)

Section GetterLaws.

Context {C : Type} `{Serialconn C}.

Lemma update_item_key_ne d d' k k' v (f : self.dict -> key -> PyVal) :
  k' <> k -> update_item d k v f d' k' = f d' k'.
Proof.
  intros Hk. unfold update_item.
  destruct k, k'; try contradiction; now rewrite andb_false_r.
Qed.

Lemma update_item_dict_ne d d' k k' v (f : self.dict -> key -> PyVal) :
  d' <> d -> update_item d k v f d' k' = f d' k'.
Proof.
  intros Hd. unfold update_item.
  destruct (self.dict_beq d' d) eqn:E; [|reflexivity].
  apply self.internal_dict_dec_bl in E. contradiction.
Qed.

Lemma update_attr_ne a a' v (f : self.attr -> PyVal) :
  a' <> a -> update_attr a v f a' = f a'.
Proof.
  intros Ha. unfold update_attr.
  destruct (self.attr_beq a' a) eqn:E; [|reflexivity].
  apply self.internal_attr_dec_bl in E. contradiction.
Qed.

Lemma update_attr_eq a v (f : self.attr -> PyVal) :
  update_attr a v f a = v.
Proof. unfold update_attr. destruct a; reflexivity. Qed.

Lemma update_item_eq d k v (f : self.dict -> key -> PyVal) :
  update_item d k v f d k = v.
Proof. unfold update_item. destruct d, k; reflexivity. Qed.

(** A getter whose read raises caches nothing. *)
Lemma call_getter_response_raises (g : Getter) (node_id : Z) (w : Midas C)
    (c1 c2 : C) (ex : Exc) :
  serial_write (query_command g) node_id (serialconn w) = (Ret tt, c1) ->
  serial_response (py "get") c1 = (Raise ex, c2) ->
  call_getter g node_id w = (Raise ex, with_conn c2 w).
Proof.
  intros Hw Hr. destruct g; unfold_getter; unfold bind, call;
    run_conn Hw; run_conn Hr; reflexivity.
Qed.

(** A getter handed an exception object caches it in its one slot; the two
    getters with a description table cache their fallback text. *)
Lemma call_getter_caches_exception (g : Getter) (node_id : Z) (w : Midas C)
    (c1 c2 : C) (ex : Exc) :
  serial_write (query_command g) node_id (serialconn w) = (Ret tt, c1) ->
  serial_response (py "get") c1 = (Ret (VExc ex), c2) ->
  fst (call_getter g node_id w) = Ret (cached_on_failure g ex)
  /\ serialconn (snd (call_getter g node_id w)) = c2
  /\ ((exists d,
         actual_of g = Some d
         /\ attrs (snd (call_getter g node_id w)) = attrs w
         /\ dicts (snd (call_getter g node_id w))
            = update_item d actual (VExc ex) (dicts w))
      \/ (exists a,
            attr_of g = Some a
            /\ dicts (snd (call_getter g node_id w)) = dicts w
            /\ attrs (snd (call_getter g node_id w))
               = update_attr a (cached_on_failure g ex) (attrs w))).
Proof.
  intros Hw Hr.
  destruct g; unfold_getter; unfold bind, call;
    run_conn Hw; run_conn Hr;
    (split; [reflexivity|]); (split; [reflexivity|]);
    first [ left; eexists; repeat split; reflexivity
          | right; eexists; repeat split; reflexivity ].
Qed.

(** X5.  Whatever the connection does, a getter never touches a ['demand']
    entry, and of the ['actual'] entries and plain attributes it can change
    only the one that is its own. *)
Theorem getter_touches_only_its_cache (g : Getter) (node_id : Z)
    (w : Midas C) :
  (forall d, dicts (snd (call_getter g node_id w)) d demand
             = dicts w d demand)
  /\ (forall d, actual_of g <> Some d ->
                dicts (snd (call_getter g node_id w)) d actual
                = dicts w d actual)
  /\ (forall a, attr_of g <> Some a ->
                attrs (snd (call_getter g node_id w)) a = attrs w a).
Proof.
  destruct g; unfold_getter; unfold bind, call;
    destruct (serial_write _ node_id (serialconn w)) as [[[]|ex1] c1];
    cbn [fst snd serialconn attrs dicts];
    try (repeat split; reflexivity);
    destruct (serial_response (py "get") c1) as [[v|ex2] c2];
    cbn [fst snd serialconn attrs dicts setattr setitem getattr getitem];
    try (repeat split; reflexivity);
    (split; [intros d; try reflexivity;
             apply update_item_key_ne; discriminate|]);
    (split; [intros d Hd; try reflexivity;
             apply update_item_dict_ne; intros ->; now apply Hd|]);
    intros a Ha; try reflexivity;
    apply update_attr_ne; intros ->; now apply Ha.
Qed.

End GetterLaws.

(** ** The description tables *)

Lemma alarm_word_inj (n m : N) :
  (n < 65536)%N -> (m < 65536)%N -> alarm_word n = alarm_word m -> n = m.
Proof.
  intros Hn Hm E. unfold alarm_word in E. cbn [map app] in E.
  assert (Hbit : forall a b, bit_char n a = bit_char m b ->
                             N.testbit n a = N.testbit m b).
  { intros a b. unfold bit_char.
    destruct (N.testbit n a), (N.testbit m b);
      first [reflexivity | discriminate]. }
  injection E as E15 E14 E13 E12 E11 E10 E9 E8 E7 E6 E5 E4 E3 E2 E1 E0.
  apply Hbit in E15, E14, E13, E12, E11, E10, E9, E8,
                 E7, E6, E5, E4, E3, E2, E1, E0.
  apply N.bits_inj. intros i.
  destruct (N.lt_ge_cases i 16) as [Hi|Hi].
  - assert (Hcases : (i = 0 \/ i = 1 \/ i = 2 \/ i = 3 \/ i = 4 \/ i = 5
                      \/ i = 6 \/ i = 7 \/ i = 8 \/ i = 9 \/ i = 10
                      \/ i = 11 \/ i = 12 \/ i = 13 \/ i = 14
                      \/ i = 15)%N)
      by lia.
    repeat (destruct Hcases as [->|Hcases]; [assumption|]).
    now subst i.
  - assert (Hhigh : forall k, (k < 65536)%N -> N.testbit k i = false).
    { intros k Hk. destruct (N.eq_dec k 0) as [->|Hk0];
        [apply N.bits_0|].
      apply N.bits_above_log2.
      apply N.lt_le_trans with (m := 16%N); [|exact Hi].
      apply N.log2_lt_pow2; [lia|exact Hk]. }
    now rewrite (Hhigh n Hn), (Hhigh m Hm).
Qed.

Section TableLaws.

Context {C : Type} `{Serialconn C}.

Lemma get_alarms_run (node_id : Z) (w : Midas C) (c1 c2 : C) (v : PyVal) :
  serial_write (py "SA1?" ++ CR) node_id (serialconn w) = (Ret tt, c1) ->
  serial_response (py "get") c1 = (Ret v, c2) ->
  get_alarms node_id w =
  (Ret (alarm_text v),
   {| serialconn := c2;
      attrs := update_attr self.alarm (alarm_text v) (attrs w);
      dicts := dicts w |}).
Proof.
  intros Hw Hr. unfold get_alarms, bind, call.
  run_conn Hw. run_conn Hr. reflexivity.
Qed.

(** X10.  [get_last_error_code] answers ["No response"] for every response
    that is not one of its eight codes: an unknown code, and also an
    exception object handed back by [serial_response], which is thereby
    replaced by that text both in the cache and in the result. *)
Theorem get_last_error_code_falls_back
    (node_id : Z) (w : Midas C) (c1 c2 : C) (v : PyVal) :
  serial_write (py "SLE?" ++ CR) node_id (serialconn w) = (Ret tt, c1) ->
  serial_response (py "get") c1 = (Ret v, c2) ->
  known_error_code v = false ->
  get_last_error_code node_id w =
  (Ret (VStr (py "No response")),
   {| serialconn := c2;
      attrs := update_attr self.error_desc (VStr (py "No response"))
                 (attrs w);
      dicts := dicts w |}).
Proof.
  intros Hw Hr Hk. unfold get_last_error_code, bind, call.
  run_conn Hw. run_conn Hr.
  unfold known_error_code, error_codes in Hk. cbn [existsb] in Hk.
  repeat (apply orb_false_elim in Hk as [? Hk]).
  unfold match_case, case.
  repeat match goal with
         | E : py_eq v ?l = false |- context [py_eq v ?l] => rewrite E
         end.
  unfold setattr, getattr. cbn [fst snd serialconn attrs dicts].
  now rewrite update_attr_eq.
Qed.

(** X11.  Answered with a 16-bit alarm word, [get_alarms] reports ["None"]
    exactly when the word is not one of the twelve words with a single
    alarm bit set: no alarm, an unassigned bit, or two alarms at once all
    read ["None"]. *)
Theorem get_alarms_names_single_bits_only
    (node_id : Z) (w : Midas C) (c1 c2 : C) (n : N) :
  (n < 65536)%N ->
  serial_write (py "SA1?" ++ CR) node_id (serialconn w) = (Ret tt, c1) ->
  serial_response (py "get") c1 = (Ret (VStr (alarm_word n)), c2) ->
  fst (get_alarms node_id w) = Ret (VStr (py "None"))
  <-> ~ In n single_alarm_bits.
Proof.
  intros Hn Hw Hr. rewrite (get_alarms_run node_id w c1 c2 _ Hw Hr).
  cbn [fst]. split.
  - intros E Hin. injection E as E. revert E.
    unfold single_alarm_bits in Hin. cbn [In] in Hin.
    repeat (destruct Hin as [<-|Hin]; [vm_compute; discriminate|]).
    contradiction.
  - intros Hout. f_equal.
    assert (Hne : forall k, In k single_alarm_bits ->
                            str_eqb (alarm_word n) (alarm_word k) = false).
    { intros k Hk. destruct (str_eqb _ _) eqn:E; [|reflexivity].
      apply str_eqb_eq in E.
      assert (k < 65536)%N.
      { unfold single_alarm_bits in Hk. cbn [In] in Hk.
        repeat (destruct Hk as [<-|Hk]; [reflexivity|]). contradiction. }
      apply alarm_word_inj in E; [subst k; contradiction|assumption..]. }
    unfold alarm_text, get_alarms, bind, call.
    cbn [serial_write serial_response Scripted_Serialconn Midas__init__
         serialconn replies commands fst snd attrs dicts setattr getattr].
    rewrite update_attr_eq. f_equal.
    unfold match_case, case, py_eq.
    pose proof (Hne 1%N) as H1. pose proof (Hne 2%N) as H2.
    pose proof (Hne 4%N) as H4. pose proof (Hne 8%N) as H8.
    pose proof (Hne 16%N) as H16. pose proof (Hne 32%N) as H32.
    pose proof (Hne 64%N) as H64. pose proof (Hne 128%N) as H128.
    pose proof (Hne 256%N) as H256. pose proof (Hne 512%N) as H512.
    pose proof (Hne 1024%N) as H1024. pose proof (Hne 2048%N) as H2048.
    unfold single_alarm_bits in *. cbn [In] in *.
    specialize (H1 ltac:(tauto)). specialize (H2 ltac:(tauto)).
    specialize (H4 ltac:(tauto)). specialize (H8 ltac:(tauto)).
    specialize (H16 ltac:(tauto)). specialize (H32 ltac:(tauto)).
    specialize (H64 ltac:(tauto)). specialize (H128 ltac:(tauto)).
    specialize (H256 ltac:(tauto)). specialize (H512 ltac:(tauto)).
    specialize (H1024 ltac:(tauto)). specialize (H2048 ltac:(tauto)).
    change (py "00000000 00000001") with (alarm_word 1).
    change (py "00000000 00000010") with (alarm_word 2).
    change (py "00000000 00000100") with (alarm_word 4).
    change (py "00000000 00001000") with (alarm_word 8).
    change (py "00000000 00010000") with (alarm_word 16).
    change (py "00000000 00100000") with (alarm_word 32).
    change (py "00000000 01000000") with (alarm_word 64).
    change (py "00000000 10000000") with (alarm_word 128).
    change (py "00000001 00000000") with (alarm_word 256).
    change (py "00000010 00000000") with (alarm_word 512).
    change (py "00000100 00000000") with (alarm_word 1024).
    change (py "00001000 00000000") with (alarm_word 2048).
    now rewrite H1, H2, H4, H8, H16, H32, H64, H128, H256, H512, H1024,
      H2048.
Qed.

End TableLaws.

(** ** Confirmed sets over any connection *)

(** X12.  A confirmed [set_network_id] followed by a successful read-back
    leaves in [network_id] what the read-back returned: the written value
    is overwritten and kept nowhere. *)
Theorem set_network_id_keeps_the_readback
    {C : Type} `{Serialconn C}
    (network_id : str) (node_id : Z) (w : Midas C) (c1 c2 c3 c4 : C)
    (v : PyVal) :
  serial_write (py "SNI," ++ network_id ++ CR) node_id (serialconn w)
  = (Ret tt, c1) ->
  serial_response (py "set") c1 = (Ret (VBool true), c2) ->
  serial_write (py "SNI?" ++ CR) node_id c2 = (Ret tt, c3) ->
  serial_response (py "get") c3 = (Ret v, c4) ->
  fst (set_network_id network_id node_id w) = Ret (VBool true)
  /\ attrs (snd (set_network_id network_id node_id w)) self.network_id = v
  /\ (forall a, a <> self.network_id ->
                attrs (snd (set_network_id network_id node_id w)) a
                = attrs w a)
  /\ dicts (snd (set_network_id network_id node_id w)) = dicts w.
Proof.
  intros Hw Hr Hq Hv.
  assert (E : set_network_id network_id node_id w =
              (Ret (VBool true),
               {| serialconn := c4;
                  attrs := update_attr self.network_id v
                             (update_attr self.network_id (VStr network_id)
                                (attrs w));
                  dicts := dicts w |})).
  { unfold set_network_id, get_network_id, bind, call, setattr, getattr.
    cbv zeta. run_conn Hw. run_conn Hr.
    cbn [is_True fst snd serialconn attrs dicts].
    run_conn Hq. run_conn Hv.
    reflexivity. }
  rewrite E. cbn [fst snd attrs dicts].
  split; [reflexivity|]. split; [apply update_attr_eq|].
  split; [|reflexivity].
  intros a Ha. now rewrite !update_attr_ne by exact Ha.
Qed.

Lemma set_network_id_keeps_the_readback_witness :
  attrs (snd (set_network_id (py "7") 0 (confirming (py "3"))))
    self.network_id = VStr (py "3").
Proof.
  apply (proj1 (proj2 (@set_network_id_keeps_the_readback
                  Scripted Scripted_Serialconn
                  (py "7") 0 (confirming (py "3"))
                  {| replies := [VBool true; VStr (py "3")];
                     commands := [(py "SNI,7" ++ CR, 0%Z)] |}
                  {| replies := [VStr (py "3")];
                     commands := [(py "SNI,7" ++ CR, 0%Z)] |}
                  {| replies := [VStr (py "3")];
                     commands := [(py "SNI,7" ++ CR, 0%Z);
                                  (py "SNI?" ++ CR, 0%Z)] |}
                  {| replies := [];
                     commands := [(py "SNI,7" ++ CR, 0%Z);
                                  (py "SNI?" ++ CR, 0%Z)] |}
                  (VStr (py "3"))
                  eq_refl eq_refl eq_refl eq_refl))).
Defined.

(** X13.  When the read-back after a confirmed set raises, the setter
    raises too, so the caller never sees the [True]; yet ['demand'] has
    already taken the written value, and ['actual'] is as before. *)
Theorem confirmed_set_with_failed_readback
    {C : Type} `{Serialconn C}
    (s : Setter) (d : self.dict) (value : str) (node_id : Z) (w : Midas C)
    (c1 c2 c3 c4 : C) (ex : Exc) :
  cache_of s = Some d ->
  serial_write (set_command s value) node_id (serialconn w) = (Ret tt, c1) ->
  serial_response (py "set") c1 = (Ret (VBool true), c2) ->
  serial_write (set_code s ++ py "?" ++ CR) node_id c2 = (Ret tt, c3) ->
  serial_response (py "get") c3 = (Raise ex, c4) ->
  call_setter s value node_id w =
  (Raise ex,
   {| serialconn := c4; attrs := attrs w;
      dicts := update_item d demand (VStr value) (dicts w) |})
  /\ dicts (snd (call_setter s value node_id w)) d demand = VStr value
  /\ dicts (snd (call_setter s value node_id w)) d actual = dicts w d actual.
Proof.
  intros Hd Hw Hr Hq Hv.
  destruct (paired_getter s d Hd) as (g & Hg & Ha & Hcode).
  assert (E : call_setter s value node_id w =
              (Raise ex,
               {| serialconn := c4; attrs := attrs w;
                  dicts := update_item d demand (VStr value) (dicts w) |})).
  { rewrite (call_setter_confirmed s d g value node_id w c1 c2 Hd Hg Hw Hr).
    cbv zeta. rewrite <- Hcode in Hq.
    rewrite (call_getter_response_raises g node_id
               {| serialconn := c2; attrs := attrs w;
                  dicts := update_item d demand (VStr value) (dicts w) |}
               c3 c4 ex Hq Hv).
    reflexivity. }
  rewrite E. cbn [snd dicts]. split; [reflexivity|]. split.
  - apply update_item_eq.
  - apply update_item_key_ne. discriminate.
Qed.

(** A connection scripted to confirm the set and then to have nothing to
    answer the query with. *)
Lemma confirmed_set_with_failed_readback_witness :
  dicts (snd (call_setter Set_purge_pressure (py "250") 0
                (Midas__init__
                   {| replies := [VBool true]; commands := [] |})))
    self.purge_pressure demand = VStr (py "250")
  /\ dicts (snd (call_setter Set_purge_pressure (py "250") 0
                   (Midas__init__
                      {| replies := [VBool true]; commands := [] |})))
       self.purge_pressure actual = VStr [].
Proof.
  apply (proj2 (@confirmed_set_with_failed_readback
                  Scripted Scripted_Serialconn
                  Set_purge_pressure self.purge_pressure (py "250") 0
                  (Midas__init__
                     {| replies := [VBool true]; commands := [] |})
                  {| replies := [VBool true];
                     commands := [(py "SPP,250" ++ CR, 0%Z)] |}
                  {| replies := [];
                     commands := [(py "SPP,250" ++ CR, 0%Z)] |}
                  {| replies := [];
                     commands := [(py "SPP,250" ++ CR, 0%Z);
                                  (py "SPP?" ++ CR, 0%Z)] |}
                  {| replies := [];
                     commands := [(py "SPP,250" ++ CR, 0%Z);
                                  (py "SPP?" ++ CR, 0%Z)] |}
                  {| exc_class := OtherError;
                     exc_str := py "no reply scripted" |}
                  eq_refl eq_refl eq_refl eq_refl eq_refl)).
Defined.

(** Witnesses for the description tables. *)
Lemma get_last_error_code_falls_back_witness :
  fst (get_last_error_code 0 (Midas__init__ (opened [RxRaise timed_out])))
  = Ret (VStr (py "No response")).
Proof.
  apply (f_equal fst
           (@get_last_error_code_falls_back
              MidasSerial.t MidasSerial_Serialconn
              0 (Midas__init__ (opened [RxRaise timed_out]))
              {| MidasSerial.serial :=
                   Some {| is_open := true;
                           written := [map byte_of (py "SLE?" ++ CR)];
                           incoming := device [RxRaise timed_out];
                           reads := 0 |};
                 MidasSerial.stdout := [] |}
              {| MidasSerial.serial :=
                   Some {| is_open := true;
                           written := [map byte_of (py "SLE?" ++ CR)];
                           incoming := device [RxRaise timed_out];
                           reads := 1 |};
                 MidasSerial.stdout :=
                   [py "Error: Timeout, exception: timed out"] |}
              (VExc timed_out)
              eq_refl eq_refl eq_refl)).
Defined.

Lemma get_alarms_names_single_bits_only_witness :
  fst (get_alarms 0
         (Midas__init__
            {| replies := [VStr (py "00000000 00000011")];
               commands := [] |}))
  = Ret (VStr (py "None")).
Proof.
  apply (proj2 (@get_alarms_names_single_bits_only
                  Scripted Scripted_Serialconn
                  0 (Midas__init__
                       {| replies := [VStr (py "00000000 00000011")];
                          commands := [] |})
                  {| replies := [VStr (py "00000000 00000011")];
                     commands := [(py "SA1?" ++ CR, 0%Z)] |}
                  {| replies := [];
                     commands := [(py "SA1?" ++ CR, 0%Z)] |}
                  3%N eq_refl eq_refl eq_refl)).
  unfold single_alarm_bits. cbn [In].
  intros Hin.
  repeat (destruct Hin as [Hin|Hin]; [discriminate Hin|]).
  exact Hin.
Defined.

(** ** The facade over MidasSerial, in every state *)

(** A setter over [MidasSerial] is never confirmed: it hands on an outcome
    other than [True] and only the connection moves. *)
Lemma setter_outcome (s : Setter) (value : str) (node_id : Z)
    (w : Midas MidasSerial.t) :
  exists o c,
    call_setter s value node_id w = (o, with_conn c w)
    /\ o <> Ret (VBool true).
Proof.
  destruct (serial_write_outcome (serialconn w) (set_command s value) node_id)
    as [[ex Hw]|[c1 Hw]].
  - exists (Raise ex), (serialconn w). split; [|discriminate].
    apply (@call_setter_write_raises _ MidasSerial_Serialconn
             s value node_id w ex _ Hw).
  - destruct (serial_response_outcome c1 (py "set"))
      as [c2 [[ex Hr]|[ex Hr]]];
      eexists _, c2;
      (split;
       [apply (@call_setter_unconfirmed _ MidasSerial_Serialconn
                 s value node_id w c1 c2 _ Hw Hr); discriminate
       |discriminate]).
Qed.

(** X16.  With [MidasSerial] as the connection, no set operation changes a
    cache and none returns [True], in any state of the port, for any value
    and node, whatever the device answers: [serial_response] never hands
    back the [True] the setters test for. *)
Theorem setters_never_change_a_cache
    (s : Setter) (value : str) (node_id : Z) (w : Midas MidasSerial.t) :
  attrs (snd (call_setter s value node_id w)) = attrs w
  /\ dicts (snd (call_setter s value node_id w)) = dicts w
  /\ fst (call_setter s value node_id w) <> Ret (VBool true).
Proof.
  destruct (setter_outcome s value node_id w) as (o & c & E & Ho).
  rewrite E. cbn [fst snd with_conn attrs dicts].
  split; [reflexivity|]. split; [reflexivity|]. exact Ho.
Qed.

Lemma never_payload_same_caches {C} (w w' : Midas C) :
  attrs w' = attrs w -> dicts w' = dicts w ->
  never_payload w -> never_payload w'.
Proof. unfold never_payload. intros -> ->. exact (fun H => H). Qed.

(** One getter call keeps payloads out of the caches. *)
Lemma getter_keeps_payloads_out (g : Getter) (node_id : Z)
    (w : Midas MidasSerial.t) :
  never_payload w -> never_payload (snd (call_getter g node_id w)).
Proof.
  intros Hinv.
  destruct (serial_write_outcome (serialconn w) (query_command g) node_id)
    as [[ex Hw]|[c1 Hw]].
  { rewrite (@call_getter_write_raises _ MidasSerial_Serialconn
               g node_id w ex _ Hw).
    now apply (never_payload_same_caches w). }
  destruct (serial_response_outcome c1 (py "get"))
    as [c2 [[ex Hr]|[ex Hr]]].
  { rewrite (@call_getter_response_raises _ MidasSerial_Serialconn
               g node_id w c1 c2 ex Hw Hr).
    now apply (never_payload_same_caches w). }
  destruct (@call_getter_caches_exception _ MidasSerial_Serialconn
              g node_id w c1 c2 ex Hw Hr)
    as (_ & _ & [(d & Hd & Hattrs & Hdicts)|(a & Ha & Hdicts & Hattrs)]);
    destruct Hinv as (Hdemand & Hactual & Hplain);
    unfold never_payload; rewrite Hattrs, Hdicts;
    (split; [|split]).
  - intros d0. now rewrite update_item_key_ne by discriminate.
  - intros d0. destruct (self.dict_eq_dec d0 d) as [->|Hne].
    + rewrite update_item_eq. right. now exists ex.
    + now rewrite update_item_dict_ne by exact Hne.
  - exact Hplain.
  - exact Hdemand.
  - exact Hactual.
  - intros a0. destruct (self.attr_eq_dec a0 a) as [->|Hne].
    + rewrite update_attr_eq.
      destruct g; try discriminate Ha; injection Ha as <-;
        cbn [cached_on_failure];
        first [ left; right; now exists ex
              | right; left; now split
              | right; right; now split ].
    + now rewrite update_attr_ne by exact Hne.
Qed.

Lemma session_keeps_payloads_out (calls : list Call)
    (w : Midas MidasSerial.t) :
  never_payload w -> never_payload (session calls w).
Proof.
  revert w. induction calls as [|c calls IH]; intros w Hinv; [exact Hinv|].
  cbn [session]. apply IH. destruct c as [g node_id|s value node_id].
  - now apply getter_keeps_payloads_out.
  - cbn [perform].
    destruct (setter_outcome s value node_id w) as (o & c & E & _).
    rewrite E. now apply (never_payload_same_caches w).
Qed.

(** X8.  Starting from [Midas.__init__] with a [MidasSerial] in any state,
    after any sequence of getter and setter calls, with any arguments and
    whatever the device answers, no cache holds a value sent by the device:
    every ['demand'] is still the empty string, and every other cache is
    the empty string, a caught exception object, or the fallback text of
    [get_last_error_code] or [get_alarms]. *)
Theorem session_never_caches_a_payload
    (conn : MidasSerial.t) (calls : list Call) :
  never_payload (session calls (Midas__init__ conn)).
Proof.
  apply session_keeps_payloads_out. unfold never_payload, Midas__init__.
  cbn [attrs dicts]. split; [|split].
  - reflexivity.
  - intros d. now left.
  - intros a. left. now left.
Qed.

(** ** The facade over MidasSerial, by the state of the port *)

Lemma serial_write_sends (self : MidasSerial.t) (p : Serial)
    (command : str) (node_id : Z) (data : list Byte.byte) :
  MidasSerial.serial self = Some p ->
  (0 <= node_id <= 15)%Z ->
  encode_utf8 command = Some data ->
  exists p1,
    MidasSerial.serial_write command node_id self =
    (Ret tt, {| MidasSerial.serial := Some p1;
                MidasSerial.stdout := MidasSerial.stdout self |})
    /\ incoming p1 = incoming p /\ reads p1 = reads p
    /\ is_open p1 = is_open p.
Proof.
  intros Hp Hnode Hdata.
  rewrite (serial_write_unfold self p command node_id Hp ltac:(lia)).
  rewrite (encode_addressed command node_id data Hnode Hdata).
  destruct (is_open p) eqn:Hopen.
  - eexists. split; [reflexivity|]. repeat split. exact Hopen.
  - exists p. destruct self as [port out]. cbn in Hp. subst port.
    repeat split. exact Hopen.
Qed.

Lemma serial_response_caught (self : MidasSerial.t) (p : Serial)
    (response_type : str) (ex : Exc) :
  MidasSerial.serial self = Some p ->
  incoming p (reads p) = RxRaise ex ->
  (is_TimeoutError ex || is_SerialException ex) = true ->
  exists out,
    MidasSerial.serial_response response_type self =
    (Ret (VExc ex),
     {| MidasSerial.serial := Some (after_read p);
        MidasSerial.stdout := out |}).
Proof.
  intros Hp Hev Hex.
  rewrite (serial_response_unfold self p response_type Hp), Hev.
  destruct (is_TimeoutError ex); [eexists; reflexivity|].
  cbn [orb] in Hex. rewrite Hex. eexists; reflexivity.
Qed.

(** X1.  On a [Midas] whose connection was never opened, every getter, every
    setter and [close_serial] raise the [AttributeError] of the missing
    [serial] attribute, and neither the connection object nor any cache
    changes. *)
Theorem accessors_raise_before_open
    (g : Getter) (s : Setter) (value : str) (node_id : Z)
    (w : Midas MidasSerial.t) :
  MidasSerial.serial (serialconn w) = None ->
  (-64 <= node_id < 1114048)%Z ->
  call_getter g node_id w
  = (Raise AttributeError_serial, with_conn (serialconn w) w)
  /\ call_setter s value node_id w
     = (Raise AttributeError_serial, with_conn (serialconn w) w)
  /\ close_serial w
     = (Raise AttributeError_serial, with_conn (serialconn w) w).
Proof.
  intros Hp Hnode. split; [|split].
  - apply (@call_getter_write_raises _ MidasSerial_Serialconn).
    apply serial_write_no_port; assumption.
  - apply (@call_setter_write_raises _ MidasSerial_Serialconn).
    apply serial_write_no_port; assumption.
  - unfold close_serial, call, MidasSerial.close_connection, with_conn.
    now rewrite Hp.
Qed.

Lemma accessors_raise_before_open_witness :
  call_getter Get_status_word 0 (Midas__init__ MidasSerial.__init__)
  = (Raise AttributeError_serial,
     with_conn MidasSerial.__init__ (Midas__init__ MidasSerial.__init__)).
Proof.
  apply (proj1 (accessors_raise_before_open
                  Get_status_word Set_tank_temperature (py "45") 0
                  (Midas__init__ MidasSerial.__init__)
                  eq_refl ltac:(lia))).
Defined.



(** X6.  When the read after a query raises a [TimeoutError] or a
    [SerialException], the getter of an actual/demand parameter does not
    fail: it returns the exception object and stores it as ['actual'],
    replacing what was cached. *)
Theorem getter_caches_the_transport_error
    (g : Getter) (d : self.dict) (node_id : Z) (w : Midas MidasSerial.t)
    (p : Serial) (ex : Exc) :
  MidasSerial.serial (serialconn w) = Some p ->
  (0 <= node_id <= 15)%Z ->
  incoming p (reads p) = RxRaise ex ->
  (is_TimeoutError ex || is_SerialException ex) = true ->
  actual_of g = Some d ->
  fst (call_getter g node_id w) = Ret (VExc ex)
  /\ dicts (snd (call_getter g node_id w)) d actual = VExc ex
  /\ dicts (snd (call_getter g node_id w)) d demand = dicts w d demand.
Proof.
  intros Hp Hnode Hev Hex Hd.
  destruct (serial_write_sends (serialconn w) p (query_command g) node_id _
              Hp Hnode (encode_query_command g))
    as (p1 & Hw & Hinc & Hreads & _).
  assert (Hev1 : incoming p1 (reads p1) = RxRaise ex)
    by now rewrite Hinc, Hreads.
  destruct (serial_response_caught
              {| MidasSerial.serial := Some p1;
                 MidasSerial.stdout := MidasSerial.stdout (serialconn w) |}
              p1 (py "get") ex eq_refl Hev1 Hex)
    as (out & Hr).
  destruct (@call_getter_caches_exception _ MidasSerial_Serialconn
              g node_id w _ _ ex Hw Hr)
    as (Hret & _ & [(d' & Hd' & _ & Hdicts)|(a & Ha & _ & _)]).
  - rewrite Hd in Hd'. injection Hd' as <-. rewrite Hret, Hdicts.
    split; [destruct g; try discriminate Hd; reflexivity|]. split.
    + apply update_item_eq.
    + apply update_item_key_ne. discriminate.
  - destruct g; discriminate.
Qed.

Lemma getter_caches_the_transport_error_witness :
  fst (call_getter Get_tank_temperature 0
         (Midas__init__ (opened [RxRaise timed_out])))
  = Ret (VExc timed_out)
  /\ dicts (snd (call_getter Get_tank_temperature 0
                   (Midas__init__ (opened [RxRaise timed_out]))))
       self.tank_temperature actual = VExc timed_out
  /\ dicts (snd (call_getter Get_tank_temperature 0
                   (Midas__init__ (opened [RxRaise timed_out]))))
       self.tank_temperature demand = VStr [].
Proof.
  apply (getter_caches_the_transport_error
           Get_tank_temperature self.tank_temperature 0
           (Midas__init__ (opened [RxRaise timed_out]))
           {| is_open := true; written := [];
              incoming := device [RxRaise timed_out]; reads := 0 |}
           timed_out eq_refl ltac:(lia) eq_refl eq_refl eq_refl).
Defined.

(** X7.  When the device answers a command with text, any text at all,
    every getter, and every setter whose command can be encoded, raises
    the [TypeError] of the classification step, and no cache changes: with
    [MidasSerial] no reply of the device is ever returned to the caller. *)
Theorem text_reply_raises_in_every_accessor
    (g : Getter) (s : Setter) (value : str) (data : list Byte.byte)
    (node_id : Z) (w : Midas MidasSerial.t) (p : Serial) (response : str) :
  MidasSerial.serial (serialconn w) = Some p ->
  (0 <= node_id <= 15)%Z ->
  incoming p (reads p) = RxStr response ->
  encode_utf8 (set_command s value) = Some data ->
  (fst (call_getter g node_id w) = Raise tuple_index_error
   /\ attrs (snd (call_getter g node_id w)) = attrs w
   /\ dicts (snd (call_getter g node_id w)) = dicts w)
  /\ (fst (call_setter s value node_id w) = Raise tuple_index_error
      /\ attrs (snd (call_setter s value node_id w)) = attrs w
      /\ dicts (snd (call_setter s value node_id w)) = dicts w).
Proof.
  intros Hp Hnode Hev Hdata.
  assert (Hr : forall p1 out,
             incoming p1 = incoming p -> reads p1 = reads p ->
             forall response_type,
               MidasSerial.serial_response response_type
                 {| MidasSerial.serial := Some p1;
                    MidasSerial.stdout := out |}
               = (Raise tuple_index_error,
                  {| MidasSerial.serial := Some (after_read p1);
                     MidasSerial.stdout := out |})).
  { intros p1 out Hinc Hreads response_type.
    rewrite (serial_response_unfold
               {| MidasSerial.serial := Some p1; MidasSerial.stdout := out |}
               p1 response_type eq_refl).
    now rewrite Hinc, Hreads, Hev. }
  split.
  - destruct (serial_write_sends (serialconn w) p (query_command g) node_id
                _ Hp Hnode (encode_query_command g))
      as (p1 & Hw & Hinc & Hreads & _).
    rewrite (@call_getter_response_raises _ MidasSerial_Serialconn
               g node_id w _ _ _ Hw (Hr p1 _ Hinc Hreads (py "get"))).
    repeat split.
  - destruct (serial_write_sends (serialconn w) p (set_command s value)
                node_id data Hp Hnode Hdata)
      as (p1 & Hw & Hinc & Hreads & _).
    rewrite (@call_setter_unconfirmed _ MidasSerial_Serialconn
               s value node_id w _ _ _ Hw (Hr p1 _ Hinc Hreads (py "set"))
               ltac:(discriminate)).
    repeat split.
Qed.

Lemma text_reply_raises_in_every_accessor_witness :
  fst (call_getter Get_status_word 0
         (Midas__init__ (opened [RxStr (py "128,A,C")])))
  = Raise tuple_index_error
  /\ attrs (snd (call_getter Get_status_word 0
                   (Midas__init__ (opened [RxStr (py "128,A,C")]))))
     = attrs (Midas__init__ (opened [RxStr (py "128,A,C")]))
  /\ dicts (snd (call_getter Get_status_word 0
                   (Midas__init__ (opened [RxStr (py "128,A,C")]))))
     = dicts (Midas__init__ (opened [RxStr (py "128,A,C")])).
Proof.
  apply (proj1 (text_reply_raises_in_every_accessor
                  Get_status_word Set_tank_temperature (py "45")
                  (map byte_of (py "SHT,45" ++ CR)) 0
                  (Midas__init__ (opened [RxStr (py "128,A,C")]))
                  {| is_open := true; written := [];
                     incoming := device [RxStr (py "128,A,C")];
                     reads := 0 |}
                  (py "128,A,C") eq_refl ltac:(lia) eq_refl eq_refl)).
Defined.

Lemma serial_write_closed (self : MidasSerial.t) (p : Serial)
    (command : str) (node_id : Z) :
  MidasSerial.serial self = Some p ->
  is_open p = false ->
  (-64 <= node_id < 1114048)%Z ->
  MidasSerial.serial_write command node_id self = (Ret tt, self).
Proof.
  intros Hp Hclosed Hnode.
  rewrite (serial_write_unfold self p command node_id Hp Hnode).
  now rewrite Hclosed.
Qed.

Lemma closed_port_getter (g : Getter) (node_id : Z)
    (w : Midas MidasSerial.t) (p : Serial) :
  MidasSerial.serial (serialconn w) = Some p ->
  is_open p = false ->
  (-64 <= node_id < 1114048)%Z ->
  exists out,
    serialconn (snd (call_getter g node_id w))
    = {| MidasSerial.serial :=
           Some {| is_open := false; written := written p;
                   incoming := incoming p; reads := S (reads p) |};
         MidasSerial.stdout := out |}.
Proof.
  intros Hp Hclosed Hnode.
  destruct (serial_response_port (serialconn w) p (py "get") Hp)
    as (o & out & Hr & _).
  exists out.
  rewrite (@call_getter_conn _ MidasSerial_Serialconn
             g node_id w _ _ o
             (serial_write_closed _ p _ node_id Hp Hclosed Hnode) Hr).
  unfold after_read. now rewrite Hclosed.
Qed.

(** X9.  On a port that is not open, a getter or setter transmits nothing
    and says nothing about it, yet it still goes on to read from the port
    once, waiting for the answer to a command that was never sent. *)
Theorem closed_port_accessor_still_reads
    (g : Getter) (s : Setter) (value : str) (node_id : Z)
    (w : Midas MidasSerial.t) (p : Serial) :
  MidasSerial.serial (serialconn w) = Some p ->
  is_open p = false ->
  (-64 <= node_id < 1114048)%Z ->
  (exists out,
     serialconn (snd (call_getter g node_id w))
     = {| MidasSerial.serial :=
            Some {| is_open := false; written := written p;
                    incoming := incoming p; reads := S (reads p) |};
          MidasSerial.stdout := out |})
  /\ (exists out,
        serialconn (snd (call_setter s value node_id w))
        = {| MidasSerial.serial :=
               Some {| is_open := false; written := written p;
                       incoming := incoming p; reads := S (reads p) |};
             MidasSerial.stdout := out |}).
Proof.
  intros Hp Hclosed Hnode. split.
  - now apply closed_port_getter.
  - destruct (serial_response_port (serialconn w) p (py "set") Hp)
      as (o & out & Hr & Ho).
    exists out.
    rewrite (@call_setter_unconfirmed _ MidasSerial_Serialconn
               s value node_id w _ _ o
               (serial_write_closed _ p _ node_id Hp Hclosed Hnode) Hr Ho).
    cbn [snd with_conn serialconn]. unfold after_read. now rewrite Hclosed.
Qed.

Lemma closed_port_accessor_still_reads_witness :
  exists out,
    serialconn (snd (call_getter Get_status_word 3
                       (Midas__init__ (closed []))))
    = {| MidasSerial.serial :=
           Some {| is_open := false; written := [];
                   incoming := device []; reads := 1 |};
         MidasSerial.stdout := out |}.
Proof.
  apply (proj1 (closed_port_accessor_still_reads
                  Get_status_word Set_tank_temperature (py "45") 3
                  (Midas__init__ (closed []))
                  {| is_open := false; written := [];
                     incoming := device []; reads := 0 |}
                  eq_refl eq_refl ltac:(lia))).
Defined.



(** ** Frames on a shared line *)

Lemma byte_of_to_N (c : N) : (c < 256)%N -> Byte.to_N (byte_of c) = c.
Proof.
  intros Hc. unfold byte_of.
  change 255%N with (N.ones 8). rewrite N.land_ones.
  rewrite N.mod_small by exact Hc.
  destruct (Byte.of_N c) as [b|] eqn:E; [now apply Byte.to_of_N|].
  pose proof (Byte.to_of_N_option_map c) as Hopt. rewrite E in Hopt.
  replace (c <=? 255)%N with true in Hopt
    by (symmetry; apply N.leb_le; lia).
  discriminate Hopt.
Qed.

Lemma map_byte_of_inj (s t : str) :
  Forall (fun c => (c < 256)%N) s -> Forall (fun c => (c < 256)%N) t ->
  map byte_of s = map byte_of t -> s = t.
Proof.
  intros Hs. revert t.
  induction Hs as [|c s Hc _ IH]; intros t Ht E; destruct Ht as [|c' t Hc' Ht];
    try discriminate E; [reflexivity|].
  cbn [map] in E. injection E as Ehead Etail.
  f_equal; [|now apply IH].
  now rewrite <- (byte_of_to_N c Hc), <- (byte_of_to_N c' Hc'), Ehead.
Qed.

Lemma query_command_bytes (g : Getter) :
  Forall (fun c => (c < 256)%N) (query_command g).
Proof. destruct g; repeat (constructor; [reflexivity|]); constructor. Qed.

Lemma addressed_bytes (command : str) (node_id : Z) :
  (0 <= node_id <= 15)%Z ->
  Forall (fun c => (c < 256)%N) command ->
  Forall (fun c => (c < 256)%N) (addressed command node_id)
  /\ map byte_of (addressed command node_id)
     = node_prefix node_id ++ map byte_of command.
Proof.
  intros Hnode Hcmd. unfold addressed, node_prefix.
  destruct (node_id =? 0)%Z; [now split|].
  split; [|reflexivity]. constructor; [lia|exact Hcmd].
Qed.

(** The addressed query commands tell the node and the code apart. *)
Lemma addressed_query_inj (g g' : Getter) (n m : Z) :
  (0 <= n <= 15)%Z -> (0 <= m <= 15)%Z ->
  addressed (query_command g) n = addressed (query_command g') m ->
  n = m /\ query_code g = query_code g'.
Proof.
  intros Hn Hm. unfold addressed.
  destruct (n =? 0)%Z eqn:En, (m =? 0)%Z eqn:Em.
  - apply Z.eqb_eq in En, Em. intros E. split; [lia|].
    unfold query_command in E. now apply app_inv_tail in E.
  - apply Z.eqb_neq in Em. intros E. exfalso.
    assert (Hc : (Z.to_N (64 + m) < 83)%N) by lia.
    destruct (Z.to_N (64 + m)) as [|c]; destruct g; vm_compute in E;
      first [ discriminate E
            | injection E as E; subst c; vm_compute in Hc; discriminate Hc ].
  - apply Z.eqb_neq in En. intros E. exfalso.
    assert (Hc : (Z.to_N (64 + n) < 83)%N) by lia.
    destruct (Z.to_N (64 + n)) as [|c]; destruct g'; vm_compute in E;
      first [ discriminate E
            | injection E as E; subst c; vm_compute in Hc; discriminate Hc ].
  - intros E.
    pose proof (f_equal (hd 0%N) E) as Eletter.
    pose proof (f_equal (@tl N) E) as Ecmd.
    cbn [hd tl] in Eletter, Ecmd. split; [lia|].
    unfold query_command in Ecmd. now apply app_inv_tail in Ecmd.
Qed.

(** X14.  On a line shared by the nodes 0 to 15, the frame a getter puts on
    the wire determines the node it addresses and the command code: two
    getter calls that transmit the same bytes address the same node with
    the same code. *)
Theorem query_frame_determines_node_and_code
    (g g' : Getter) (n m : Z) (w : Midas MidasSerial.t) (p : Serial) :
  MidasSerial.serial (serialconn w) = Some p ->
  is_open p = true ->
  (0 <= n <= 15)%Z ->
  (0 <= m <= 15)%Z ->
  wire (snd (call_getter g n w)) = wire (snd (call_getter g' m w)) ->
  n = m /\ query_code g = query_code g'.
Proof.
  intros Hp Hopen Hn Hm.
  rewrite (getter_wire g n w p _ Hp Hopen Hn (encode_query_command g)).
  rewrite (getter_wire g' m w p _ Hp Hopen Hm (encode_query_command g')).
  intros E. apply app_inv_head in E. injection E as E.
  destruct (addressed_bytes (query_command g) n Hn (query_command_bytes g))
    as [Hb Hbytes].
  destruct (addressed_bytes (query_command g') m Hm (query_command_bytes g'))
    as [Hb' Hbytes'].
  rewrite <- Hbytes, <- Hbytes' in E.
  apply addressed_query_inj; [assumption..|].
  now apply map_byte_of_inj.
Qed.

Lemma query_frame_determines_node_and_code_witness :
  (3 = 3)%Z
  /\ query_code Get_firmware_version = query_code Get_system_running_hours.
Proof.
  apply (query_frame_determines_node_and_code
           Get_firmware_version Get_system_running_hours 3 3
           (Midas__init__ (opened []))
           {| is_open := true; written := [];
              incoming := device []; reads := 0 |}
           eq_refl eq_refl ltac:(lia) ltac:(lia) eq_refl).
Defined.

Lemma getter_touches_only_its_cache_witness :
  dicts (snd (call_getter Get_tank_temperature 0
                (Midas__init__ (opened [RxRaise timed_out]))))
    self.purge_pressure actual
  = dicts (Midas__init__ (opened [RxRaise timed_out]))
      self.purge_pressure actual.
Proof.
  apply (proj1 (proj2 (@getter_touches_only_its_cache
                  MidasSerial.t MidasSerial_Serialconn
                  Get_tank_temperature 0
                  (Midas__init__ (opened [RxRaise timed_out]))))
           self.purge_pressure).
  discriminate.
Defined.
